(** * Dapur Cerdas: the recipe recommendation engine of [app.py]

    A shallow embedding of [rekomendasi_resep] and of the input cleaning
    done before it is called, followed by the properties of the engine.

    Conventions of the embedding.
    - A Python [str] is a [string]; a character is a code point below 256
      (Latin-1), for which [isspace] and [lower] below are exactly the
      tables of CPython.
    - A Python [set] of strings is a [gset string]; [len] is [size].
    - The rule table (a [dict] read by [json.load]) is the list of its items
      in iteration order; the catalog (a data frame) is the list of its rows
      in [iterrows] order.
    - A Python [float] is a binary64 number, given by its exact value in
      [Q]. Every operation on floats returns the float nearest to its exact
      result, ties to the even significand: [fl] below. The score is the
      quotient of two lengths, which lies between 2^-63 and 1, and the
      percentage is at most 100, so that the exponent range of binary64 is
      never left; [fl] keeps 53 significant bits and does not bound the
      exponent.
    - [round (x, 2)] is the float nearest to the decimal number with two
      digits after the point that is nearest to the exact value of [x], ties
      to the even digit, as CPython computes it. *)

From Stdlib Require Import ZArith QArith Qround Qpower Lqa Ascii String List Lia
  OrderedTypeEx.
From stdpp Require Import gmap strings list sorting.

Open Scope string_scope.

(** ** Python strings *)

Module PyStr.

(** [str.isspace] on one character. *)
Definition isspace (c : ascii) : bool :=
  let n := N_of_ascii c in
  ((9 <=? n) && (n <=? 13) || (28 <=? n) && (n <=? 32)
   || (n =? 133) || (n =? 160))%N.

(** [str.lower] on one character. *)
Definition lower_char (c : ascii) : ascii :=
  let n := N_of_ascii c in
  if ((65 <=? n) && (n <=? 90)
      || (192 <=? n) && (n <=? 222) && negb (n =? 215))%N
  then ascii_of_N (n + 32) else c.

Fixpoint lower (s : string) : string :=
  match s with
  | "" => ""
  | String c s' => String (lower_char c) (lower s')
  end.

Fixpoint lstrip (s : string) : string :=
  match s with
  | "" => ""
  | String c s' => if isspace c then lstrip s' else s
  end.

Fixpoint rstrip (s : string) : string :=
  match s with
  | "" => ""
  | String c s' =>
      match rstrip s' with
      | "" => if isspace c then "" else String c ""
      | r => String c r
      end
  end.

(** [s.strip()] *)
Definition strip (s : string) : string := rstrip (lstrip s).

(** Splitting at every character satisfying [sep]; empty pieces are kept,
    and the empty string gives one empty piece, as [str.split (sep)] and
    [re.split] with a one-character class do. *)
Fixpoint split_by (sep : ascii -> bool) (s : string) : list string :=
  match s with
  | "" => [""]
  | String c s' =>
      if sep c then "" :: split_by sep s'
      else match split_by sep s' with
           | [] => [String c ""]
           | w :: ws => String c w :: ws
           end
  end.

Definition is_comma (c : ascii) : bool := Ascii.eqb c ",".
Definition is_comma_or_newline (c : ascii) : bool :=
  Ascii.eqb c "," || Ascii.eqb c "010".

(** [s.split (',')] *)
Definition split_comma (s : string) : list string := split_by is_comma s.

(** [re.split (r'[,\n]', s)] *)
Definition re_split_comma_newline (s : string) : list string :=
  split_by is_comma_or_newline s.

(** [sep.join (l)] *)
Fixpoint join (sep : string) (l : list string) : string :=
  match l with
  | [] => ""
  | [w] => w
  | w :: ws => w ++ sep ++ join sep ws
  end.

(** The first character, if any, is not a white space. *)
Definition awal_bersih (s : string) : Prop :=
  match s with "" => True | String c _ => isspace c = false end.


(** Every separator written as a comma. *)
Fixpoint ganti_pemisah (sep : ascii -> bool) (s : string) : string :=
  match s with
  | "" => ""
  | String c s' => String (if sep c then ","%char else c) (ganti_pemisah sep s')
  end.

Definition satukan_pemisah (s : string) : string :=
  ganti_pemisah is_comma_or_newline s.

(** A string of white space only. *)
Fixpoint semua_spasi (s : string) : bool :=
  match s with
  | "" => true
  | String c s' => isspace c && semua_spasi s'
  end.

(** No character of the string is a separator. *)
Fixpoint tanpa_pemisah (sep : ascii -> bool) (s : string) : bool :=
  match s with
  | "" => true
  | String c s' => negb (sep c) && tanpa_pemisah sep s'
  end.

(** Python compares strings code point by code point. *)
Definition le (s1 s2 : string) : Prop := String.leb s1 s2 = true.
Definition lt (s1 s2 : string) : Prop := String.ltb s1 s2 = true.

#[global] Instance le_dec : RelDecision le.
Proof. intros s1 s2. unfold le. apply _. Defined.

(** [sorted (l)] on strings. *)
Definition sorted (l : list string) : list string := merge_sort le l.

End PyStr.

(** ** The data of the engine *)

(** A row of the catalog, with the four columns the engine reads. *)
Record Baris := {
  judul_resep : string;
  url_sumber : string;
  bahan_bahan : list string;
  cluster_persona : string
}.

(** The dictionary built for every recipe that is kept. *)
Record Rekomendasi := {
  r_judul_resep : string;
  r_url_sumber : string;
  skor_cocok_persen : Q;
  bahan_kurang : list string;
  r_cluster_persona : string;
  saran_cerdas : list string
}.

(** ** Numbers *)

#[global] Instance Qeq_decision (a b : Q) : Decision (a == b)%Q :=
  Qeq_dec a b.

(** Rounding to the nearest integer, ties to the even one. *)
Definition round_half_even (q : Q) : Z :=
  let f := Qfloor q in
  match ((q - inject_Z f) ?= (1 # 2))%Q with
  | Lt => f
  | Gt => (f + 1)%Z
  | Eq => if Z.even f then f else (f + 1)%Z
  end.

(** The exponent of the highest bit of a positive number:
    [2 ^ ilog2 q <= q < 2 ^ (ilog2 q + 1)]. *)
Definition ilog2 (q : Q) : Z :=
  let d := (Z.log2 (Qnum q) - Z.log2 (Z.pos (Qden q)))%Z in
  if Qle_bool (2 ^ d) q then d else (d - 1)%Z.

(** A positive number rounded to 53 significant bits: the number is
    [s * 2 ^ e] with [2 ^ 52 <= s < 2 ^ 53], and [s] is rounded to the
    nearest integer, ties to the even one. *)
Definition bulat53 (q : Q) : Q :=
  let e := (ilog2 q - 52)%Z in
  Qred (inject_Z (round_half_even (q / 2 ^ e)) * 2 ^ e).

(** The float nearest to a number. *)
Definition fl (q : Q) : Q :=
  match (q ?= 0)%Q with
  | Eq => 0
  | Gt => bulat53 q
  | Lt => - bulat53 (- q)
  end.

(** [a / b] on two [int]: the float nearest to the quotient. *)
Definition truediv (a b : Z) : Q := fl (inject_Z a / inject_Z b).

(** [x * y] on floats; an [int] operand is converted first, exactly for the
    100 of line 83. *)
Definition fmul (x y : Q) : Q := fl (x * y).

(** The float written with two digits after the point, [z] being its number
    of hundredths. *)
Definition perseratus (z : Z) : Q := fl (z # 100).

(** [round (x, 2)] on a float: CPython writes the exact value of [x] with
    two digits after the point, correctly rounded, ties to the even digit,
    and reads the result back as a float. *)
Definition round2 (x : Q) : Q := perseratus (round_half_even (x * 100)).

(** Lines 53-56: the fraction of the recipe's ingredients the user has. *)
Definition skor_cocok (bahan_cocok bahan_resep_set : gset string) : Q :=
  if decide (0 < size bahan_resep_set)%nat
  then truediv (Z.of_nat (size bahan_cocok)) (Z.of_nat (size bahan_resep_set))
  else 0%Q.

(** Line 91, [l[:n]]: a negative bound counts from the end of the list. *)
Definition slice_to {A : Type} (l : list A) (n : Z) : list A :=
  if (0 <=? n)%Z then take (Z.to_nat n) l
  else take (length l - Z.to_nat (- n)) l.

(** Line 90, [sorted (l, key=..., reverse=True)]: the stable sort into
    descending order of the key. An element is put in front of the first one
    whose key is not greater than its own, so that elements with equal keys
    stay in the order they had. *)
Section Sorted.
Context {A : Type} (key : A -> Q).

Fixpoint sisip (x : A) (l : list A) : list A :=
  match l with
  | [] => [x]
  | y :: l' =>
      if Qle_bool (key y) (key x) then x :: l else y :: sisip x l'
  end.

Definition sorted_reverse (l : list A) : list A := foldr sisip [] l.
End Sorted.

(** ** The engine *)

Section Engine.

(** The order in which Python enumerates [set (l)] for a list [l]. It
    depends on the hashes of the strings, which change from one process to
    the next, and on the order in which the strings were put in the set;
    nothing is assumed about it. Only the text of a suggestion depends on
    it. *)
Variable iter_set : list string -> list string.

(** Line 41 *)
Definition bahan_saya_set (bahan_saya : list string) : gset string :=
  list_to_set (map (fun bahan => PyStr.lower (PyStr.strip bahan)) bahan_saya).

(** Line 66 *)
Definition antecedent_of (antecedent_str : string) : gset string :=
  list_to_set (PyStr.split_comma antecedent_str).

(** Line 71: the three conditions under which a rule gives a suggestion. *)
Definition terpicu (bahan_cocok bahan_resep_set bahan_disarankan : gset string)
    (aturan : string * string) : Prop :=
  (antecedent_of (aturan.1) ⊆ bahan_cocok)
  ∧ (aturan.2 ∉ bahan_resep_set)
  ∧ (aturan.2 ∉ bahan_disarankan).

#[global] Instance terpicu_dec c r d a : Decision (terpicu c r d a).
Proof. unfold terpicu. apply _. Defined.

(** Line 72 *)
Definition saran_teks (aturan : string * string) : string :=
  String.concat ""
    [ "`"; PyStr.join ", " (iter_set (PyStr.split_comma (aturan.1)));
      "` banyak digunakan dengan **`"; aturan.2;
      "`**, Anda mungkin juga tertarik untuk membeli **`"; aturan.2;
      "`** sebagai pelengkap." ].

(** Lines 65-78: the loop over the items of the rule table, on the two
    variables it updates. It is left at the second suggestion. *)
Fixpoint saran_loop (bahan_cocok bahan_resep_set : gset string)
    (items : list (string * string))
    (saran_cerdas_list : list string) (bahan_disarankan : gset string)
    : list string * gset string :=
  match items with
  | [] => (saran_cerdas_list, bahan_disarankan)
  | aturan :: items' =>
      if decide (terpicu bahan_cocok bahan_resep_set bahan_disarankan aturan)
      then
        let saran_cerdas_list' := (saran_cerdas_list ++ [saran_teks aturan])%list in
        let bahan_disarankan' := bahan_disarankan ∪ {[aturan.2]} in
        if decide (2 <= length saran_cerdas_list')%nat
        then (saran_cerdas_list', bahan_disarankan')
        else saran_loop bahan_cocok bahan_resep_set items'
               saran_cerdas_list' bahan_disarankan'
      else saran_loop bahan_cocok bahan_resep_set items'
             saran_cerdas_list bahan_disarankan
  end.

(** Lines 45-88: the body of the loop over the catalog, for one row. *)
Definition rekomendasi_baris (bahan_saya_set : gset string)
    (aturan_asosiasi : list (string * string)) (row : Baris)
    : option Rekomendasi :=
  let bahan_resep_set : gset string := list_to_set (bahan_bahan row) in
  let bahan_cocok := bahan_saya_set ∩ bahan_resep_set in
  let bahan_kurang := bahan_resep_set ∖ bahan_saya_set in
  let skor := skor_cocok bahan_cocok bahan_resep_set in
  if Qlt_le_dec 0 skor then
    let saran_cerdas_list :=
      (saran_loop bahan_cocok bahan_resep_set aturan_asosiasi [] ∅).1 in
    Some {| r_judul_resep := judul_resep row;
            r_url_sumber := url_sumber row;
            skor_cocok_persen := round2 (fmul skor 100);
            bahan_kurang := PyStr.sorted (elements bahan_kurang);
            r_cluster_persona := cluster_persona row;
            saran_cerdas := saran_cerdas_list |}
  else None.

(** Lines 44-88: the loop over the catalog, on [hasil_rekomendasi]. *)
Fixpoint resep_loop (bahan_saya_set : gset string)
    (aturan_asosiasi : list (string * string)) (rows : list Baris)
    (hasil_rekomendasi : list Rekomendasi) : list Rekomendasi :=
  match rows with
  | [] => hasil_rekomendasi
  | row :: rows' =>
      match rekomendasi_baris bahan_saya_set aturan_asosiasi row with
      | Some rekomendasi =>
          resep_loop bahan_saya_set aturan_asosiasi rows'
            (hasil_rekomendasi ++ [rekomendasi])%list
      | None =>
          resep_loop bahan_saya_set aturan_asosiasi rows' hasil_rekomendasi
      end
  end.

(** Lines 37-91 *)
Definition rekomendasi_resep (bahan_saya : list string)
    (df_resep : list Baris) (aturan_asosiasi : list (string * string))
    (top_n : Z) : list Rekomendasi :=
  let hasil_rekomendasi :=
    resep_loop (bahan_saya_set bahan_saya) aturan_asosiasi df_resep [] in
  let hasil_rekomendasi_urut :=
    sorted_reverse skor_cocok_persen hasil_rekomendasi in
  slice_to hasil_rekomendasi_urut top_n.

End Engine.

(** Line 131: the cleaning of the text typed by the user. *)
Definition bahan_pengguna (input_bahan_str : string) : list string :=
  map (fun bahan => PyStr.lower (PyStr.strip bahan))
    (filter (fun bahan => PyStr.strip bahan ≠ "")
       (PyStr.re_split_comma_newline input_bahan_str)).

(** ** Loading the data *)

(** What a call that can fail returns: its value, or the exception raised.
    [muat_data] tells [FileNotFoundError] from the other exceptions, of which
    it prints the text. *)
Inductive Galat :=
  | FileNotFoundError
  | Lainnya (pesan : string).

Inductive Hasil (A : Type) :=
  | Nilai (x : A)
  | Gagal (e : Galat).
Arguments Nilai {A} x.
Arguments Gagal {A} e.

Section MuatData.

(** The calls made to pandas, [ast] and [json], as functions of the names of
    the files: line 22, line 24 on the table that line 22 returned, and lines
    26-27. [Mentah] is the table before its column of ingredients is
    evaluated. The rule file holds an object, read as its entries in order,
    or [null], which [json.load] reads as [None]. *)
Context {Mentah : Type}.
Variable read_csv : string -> Hasil Mentah.
Variable apply_literal_eval : Mentah -> Hasil (list Baris).
Variable open_json_load : string -> Hasil (option (list (string * string))).

(** Lines 30-35: the two handlers, each with the message given to
    [st.error]. *)
Definition tangani (e : Galat)
    : (option (list Baris) * option (list (string * string))) * list string :=
  match e with
  | FileNotFoundError =>
      ((None, None),
       ["Gagal memuat data. Pastikan file 'master_resep.csv' dan 'aturan_asosiasi_dict.json' ada di folder yang sama dengan aplikasi."])
  | Lainnya pesan =>
      ((None, None), [String.append "Terjadi kesalahan saat memuat data: " pesan])
  end.

(** Lines 17-35: the pair returned, and the messages given to [st.error]. *)
Definition muat_data (file_resep file_aturan : string)
    : (option (list Baris) * option (list (string * string))) * list string :=
  match read_csv file_resep with
  | Gagal e => tangani e
  | Nilai mentah =>
      match apply_literal_eval mentah with
      | Gagal e => tangani e
      | Nilai df_resep =>
          match open_json_load file_aturan with
          | Gagal e => tangani e
          | Nilai aturan_asosiasi =>
              ((Some df_resep, aturan_asosiasi), [])
          end
      end
  end.

End MuatData.

(** ** The search button *)

(** What the page shows below the button once it is pressed. *)
Inductive Tampilan :=
  | TanpaMasukan
  | PeringatanKosong
  | TidakAdaResep
  | DaftarResep (rekomendasi : list Rekomendasi).

(** Lines 117-145, when the button is pressed: nothing is drawn unless both
    tables are loaded (line 117); a blank text gives the warning of line 128;
    otherwise the text is cleaned, the engine is called with [top_n=5], and
    the page shows the message of line 142 or the list of recipes. *)
Definition tombol_cari (iter_set : list string -> list string)
    (df_resep : option (list Baris))
    (aturan_asosiasi : option (list (string * string)))
    (input_bahan_str : string) : Tampilan :=
  match df_resep, aturan_asosiasi with
  | Some df, Some aturan =>
      if decide (PyStr.strip input_bahan_str = "") then PeringatanKosong
      else
        let rekomendasi :=
          rekomendasi_resep iter_set (bahan_pengguna input_bahan_str) df aturan 5 in
        match rekomendasi with
        | [] => TidakAdaResep
        | _ :: _ => DaftarResep rekomendasi
        end
  | _, _ => TanpaMasukan
  end.

(** ** Definitions used to state the properties *)

(** The rules that give a suggestion when their number is not bounded: the
    table is read in its order, and a rule is taken when it satisfies the
    three conditions of line 71 with respect to the rules taken before. *)
Fixpoint aturan_layak (bahan_cocok bahan_resep_set : gset string)
    (items : list (string * string)) (bahan_disarankan : gset string)
    : list (string * string) :=
  match items with
  | [] => []
  | aturan :: items' =>
      if decide (terpicu bahan_cocok bahan_resep_set bahan_disarankan aturan)
      then aturan :: aturan_layak bahan_cocok bahan_resep_set items'
                       (bahan_disarankan ∪ {[aturan.2]})
      else aturan_layak bahan_cocok bahan_resep_set items' bahan_disarankan
  end.

(** The cleaning of the user's text as the specification words it: split,
    trim every fragment, lowercase it, then discard the empty ones. *)
Definition normalizer_spec (raw : string) : list string :=
  filter (fun fragment => fragment ≠ "")
    (map PyStr.lower
       (map PyStr.strip (PyStr.re_split_comma_newline raw))).

(** A string made of separators and white space only. *)
Fixpoint hanya_pemisah (s : string) : bool :=
  match s with
  | "" => true
  | String c s' =>
      (PyStr.is_comma_or_newline c || PyStr.isspace c) && hanya_pemisah s'
  end.

(** Two lists of ingredients that differ only in letter case, surrounding
    white space, repetition or order of their entries. *)
Inductive sama_bahan : list string -> list string -> Prop :=
  | sama_refl l : sama_bahan l l
  | sama_sym l1 l2 : sama_bahan l1 l2 -> sama_bahan l2 l1
  | sama_trans l1 l2 l3 :
      sama_bahan l1 l2 -> sama_bahan l2 l3 -> sama_bahan l1 l3
  | sama_skip a l1 l2 : sama_bahan l1 l2 -> sama_bahan (a :: l1) (a :: l2)
  | sama_huruf a b l :
      PyStr.lower a = PyStr.lower b -> sama_bahan (a :: l) (b :: l)
  | sama_spasi a b l :
      PyStr.strip a = PyStr.strip b -> sama_bahan (a :: l) (b :: l)
  | sama_ganda a l : sama_bahan (a :: a :: l) (a :: l)
  | sama_urutan l1 l2 : l1 ≡ₚ l2 -> sama_bahan l1 l2.


(** Descending order of the key. *)
Definition turun {A : Type} (key : A -> Q) : relation A :=
  fun a b => (key b <= key a)%Q.

(** The elements that have a given key, in the order of the list. *)
Definition dengan_kunci {A : Type} (key : A -> Q) (p : Q) (l : list A)
    : list A :=
  filter (fun a => (key a == p)%Q) l.

(** ** Inputs of the examples *)

(** An order of enumeration: the order of the strings. *)
Definition urutan_contoh (l : list string) : list string :=
  elements (list_to_set l : gset string).

Definition resep_a : Baris :=
  {| judul_resep := "Nasi Goreng"; url_sumber := "https://resep/1";
     bahan_bahan := ["garlic"; "onion"; "salt"];
     cluster_persona := "Praktis" |}.

Definition resep_b : Baris :=
  {| judul_resep := "Soto Ayam"; url_sumber := "https://resep/2";
     bahan_bahan := ["garlic"; "onion"];
     cluster_persona := "Tradisional" |}.

(** A name for every positive number: its binary digits, then the letter b. *)
Fixpoint nama (p : positive) : string :=
  match p with
  | xH => "b"
  | xO p' => String "0" (nama p')
  | xI p' => String "1" (nama p')
  end.

(** A recipe with [n] ingredients, which are [nama 1], ..., [nama n]. *)
Definition resep_besar (n : N) : Baris :=
  {| judul_resep := "Rijsttafel"; url_sumber := "https://resep/3";
     bahan_bahan := map (fun i => nama (Pos.of_nat i)) (seq 1 (N.to_nat n));
     cluster_persona := "Pesta" |}.

(** The recommendation for [resep_b] when the user has garlic only. *)
Definition rekomendasi_b : Rekomendasi :=
  {| r_judul_resep := "Soto Ayam"; r_url_sumber := "https://resep/2";
     skor_cocok_persen := perseratus 5000; bahan_kurang := ["onion"];
     r_cluster_persona := "Tradisional"; saran_cerdas := [] |}.

(** A rule table, and what is returned for it when the user has garlic and
    onion and asks for one recipe. *)
Definition aturan_contoh : list (string * string) :=
  [("salt", "pepper"); ("garlic", "ginger"); ("onion", "ginger");
   ("garlic,onion", "salt"); ("garlic,onion", "chili"); ("garlic", "rice")].

Definition rekomendasi_saran : Rekomendasi :=
  {| r_judul_resep := "Soto Ayam"; r_url_sumber := "https://resep/2";
     skor_cocok_persen := perseratus 10000; bahan_kurang := [];
     r_cluster_persona := "Tradisional";
     saran_cerdas :=
       ["`garlic` banyak digunakan dengan **`ginger`**, Anda mungkin juga tertarik untuk membeli **`ginger`** sebagai pelengkap.";
        "`onion, garlic` banyak digunakan dengan **`salt`**, Anda mungkin juga tertarik untuk membeli **`salt`** sebagai pelengkap."] |}.

(** A recipe of which one ingredient is the empty string. *)
Definition resep_kosong : Baris :=
  {| judul_resep := "Tumis"; url_sumber := "https://resep/4";
     bahan_bahan := [""; "garlic"]; cluster_persona := "Praktis" |}.

(** A recipe with the first 153 of the ingredients of [resep_besar]. *)
Definition resep_sedang : Baris :=
  {| judul_resep := "Gado-gado"; url_sumber := "https://resep/5";
     bahan_bahan := map (fun i => nama (Pos.of_nat i)) (seq 1 153);
     cluster_persona := "Sehat" |}.

(** A user's list with 22 ingredients of both recipes above and one more of
    [resep_besar 160]. *)
Definition bahan_banyak : list string :=
  (map (fun i => nama (Pos.of_nat i)) (seq 1 22) ++ [nama 160])%list.

(** A recommendation without its suggestions. *)
Definition tanpa_saran (r : Rekomendasi) : Rekomendasi :=
  {| r_judul_resep := r_judul_resep r; r_url_sumber := r_url_sumber r;
     skor_cocok_persen := skor_cocok_persen r; bahan_kurang := bahan_kurang r;
     r_cluster_persona := r_cluster_persona r; saran_cerdas := [] |}.

(** The recommendation for [resep_a] when the user has garlic only. *)
Definition rekomendasi_a : Rekomendasi :=
  {| r_judul_resep := "Nasi Goreng"; r_url_sumber := "https://resep/1";
     skor_cocok_persen := perseratus 3333; bahan_kurang := ["onion"; "salt"];
     r_cluster_persona := "Praktis"; saran_cerdas := [] |}.

(** * Properties *)

(** ** Strings *)

Module PyStrFacts.
Import PyStr.

Ltac semua_karakter c :=
  destruct c as [[] [] [] [] [] [] [] []]; vm_compute; try reflexivity;
  try discriminate; auto.

Lemma isspace_lower_char c : isspace (lower_char c) = isspace c.
Proof. semua_karakter c. Qed.

Lemma lower_char_idem c : lower_char (lower_char c) = lower_char c.
Proof. semua_karakter c. Qed.


Lemma lower_idem s : lower (lower s) = lower s.
Proof. induction s as [| c s IH]; simpl; [done |]. by rewrite lower_char_idem, IH. Qed.

Lemma lower_eq_empty s : lower s = "" <-> s = "".
Proof. destruct s; simpl; split; intros H; congruence. Qed.

Lemma lower_lstrip s : lower (lstrip s) = lstrip (lower s).
Proof.
  induction s as [| c s IH]; simpl; [done |].
  rewrite isspace_lower_char. destruct (isspace c); [exact IH | reflexivity].
Qed.

Lemma lower_rstrip s : lower (rstrip s) = rstrip (lower s).
Proof.
  induction s as [| c s IH]; simpl; [done |].
  rewrite <- IH, isspace_lower_char.
  destruct (rstrip s) as [| d r]; simpl; [| reflexivity].
  destruct (isspace c); reflexivity.
Qed.

Lemma lower_strip s : lower (strip s) = strip (lower s).
Proof. unfold strip. by rewrite lower_rstrip, lower_lstrip. Qed.

Lemma awal_bersih_lstrip s : awal_bersih (lstrip s).
Proof.
  induction s as [| c s IH]; simpl; [done |].
  destruct (isspace c) eqn:E; [exact IH | exact E].
Qed.

Lemma rstrip_head c s :
  isspace c = false -> ∃ r, rstrip (String c s) = String c r.
Proof.
  intros H. simpl. destruct (rstrip s); [rewrite H |]; eauto.
Qed.

Lemma awal_bersih_rstrip s : awal_bersih s -> awal_bersih (rstrip s).
Proof.
  destruct s as [| c s]; [done |]. intros H.
  destruct (rstrip_head c s H) as [r ->]. exact H.
Qed.

Lemma awal_bersih_strip s : awal_bersih (strip s).
Proof. apply awal_bersih_rstrip, awal_bersih_lstrip. Qed.

Lemma lstrip_id s : awal_bersih s -> lstrip s = s.
Proof. destruct s as [| c s]; simpl; [done |]. by intros ->. Qed.


Lemma rstrip_idem s : rstrip (rstrip s) = rstrip s.
Proof.
  induction s as [| c s IH]; simpl; [done |].
  destruct (rstrip s) as [| d r] eqn:E.
  - destruct (isspace c) eqn:Ec; simpl; [done | by rewrite Ec].
  - change (rstrip (String c (String d r))) with
      (match rstrip (String d r) with
       | "" => if isspace c then "" else String c ""
       | x => String c x end).
    by rewrite IH.
Qed.

Lemma strip_idem s : strip (strip s) = strip s.
Proof.
  unfold strip at 1. rewrite (lstrip_id _ (awal_bersih_strip s)).
  unfold strip. apply rstrip_idem.
Qed.

(** What [lower (strip _)] returns is trimmed and in lower case. *)
Lemma normal_form s :
  strip (lower (strip s)) = lower (strip s)
  ∧ lower (lower (strip s)) = lower (strip s).
Proof. split; [by rewrite <- lower_strip, strip_idem | apply lower_idem]. Qed.



(** *** Splitting *)

Lemma split_by_cons sep s : ∃ w ws, split_by sep s = w :: ws.
Proof.
  destruct s as [| c s]; simpl; [eauto |].
  destruct (sep c); [eauto |]. destruct (split_by sep s); eauto.
Qed.

Lemma split_by_app_sep sep u c t :
  sep c = true ->
  split_by sep (u ++ String c t) = (split_by sep u ++ split_by sep t)%list.
Proof.
  intros Hc. induction u as [| d u IH]; simpl.
  - by rewrite Hc.
  - rewrite IH. destruct (sep d); [reflexivity |].
    destruct (split_by_cons sep u) as (w & ws & ->). reflexivity.
Qed.

Lemma join_cons_char sep c w ws :
  join sep (String c w :: ws) = String c (join sep (w :: ws)).
Proof. destruct ws; reflexivity. Qed.

Lemma join_cons_empty sep w ws :
  join sep ("" :: w :: ws) = sep ++ join sep (w :: ws).
Proof. reflexivity. Qed.

Lemma join_split_by sep s :
  join "," (split_by sep s) = ganti_pemisah sep s.
Proof.
  induction s as [| c s IH]; simpl; [done |].
  destruct (split_by_cons sep s) as (w & ws & E). rewrite E in *.
  destruct (sep c).
  - rewrite join_cons_empty, IH. reflexivity.
  - rewrite join_cons_char, IH. reflexivity.
Qed.



Lemma join_re_split s :
  join "," (re_split_comma_newline s) = satukan_pemisah s.
Proof.
  unfold re_split_comma_newline. apply join_split_by.
Qed.

Lemma split_by_tanpa_pemisah sep s :
  Forall (fun w => tanpa_pemisah sep w = true) (split_by sep s).
Proof.
  induction s as [| c s IH]; simpl; [by repeat constructor |].
  destruct (sep c) eqn:E; [by constructor |].
  destruct (split_by_cons sep s) as (w & ws & Ew). rewrite Ew in *.
  inversion IH; subst. constructor; [| done]. simpl. by rewrite E.
Qed.



(** A string of white space only is trimmed to nothing. *)
Lemma strip_semua_spasi s : semua_spasi s = true -> strip s = "".
Proof.
  intros H. unfold strip. induction s as [| c s IH]; simpl; [done |].
  apply andb_prop in H as [-> H]. by apply IH.
Qed.

End PyStrFacts.

(** ** The cleaning of the user's text *)

Section Normalizer.
Import PyStr PyStrFacts.

Lemma bahan_pengguna_spec raw : bahan_pengguna raw = normalizer_spec raw.
Proof.
  unfold bahan_pengguna, normalizer_spec.
  induction (re_split_comma_newline raw) as [| w ws IH]; [done |].
  cbn [map]. destruct (decide (strip w = "")) as [E | E].
  - rewrite filter_cons_False by (intros H; exact (H E)).
    rewrite filter_cons_False; [exact IH |].
    intros H. apply H. by rewrite E.
  - rewrite filter_cons_True by exact E.
    rewrite filter_cons_True.
    + cbn [map]. rewrite IH. reflexivity.
    + intros H. apply (proj1 (lower_eq_empty _)) in H. contradiction.
Qed.

Lemma bahan_pengguna_normal raw :
  Forall (fun x => x ≠ "" ∧ strip x = x ∧ lower x = x) (bahan_pengguna raw).
Proof.
  unfold bahan_pengguna. apply Forall_forall. intros x Hx.
  apply list_elem_of_In, in_map_iff in Hx as (w & <- & Hw).
  apply list_elem_of_In, list_elem_of_filter in Hw as [Hw _].
  destruct (normal_form w) as [H1 H2]. repeat split; try done.
  intros H. apply (proj1 (lower_eq_empty _)) in H. contradiction.
Qed.

Lemma bahan_pengguna_app a c b :
  is_comma_or_newline c = true ->
  bahan_pengguna (a ++ String c b)
  = (bahan_pengguna a ++ bahan_pengguna b)%list.
Proof.
  intros Hc. unfold bahan_pengguna, re_split_comma_newline.
  rewrite split_by_app_sep by exact Hc.
  by rewrite filter_app, map_app.
Qed.

Lemma split_hanya_pemisah raw :
  hanya_pemisah raw = true ->
  Forall (fun w => semua_spasi w = true) (re_split_comma_newline raw).
Proof.
  unfold re_split_comma_newline.
  induction raw as [| c s IH]; simpl; [by repeat constructor |].
  intros [Hc Hs]%andb_prop. specialize (IH Hs).
  destruct (is_comma_or_newline c) eqn:E; [by constructor |].
  destruct (split_by_cons is_comma_or_newline s) as (w & ws & Ew).
  rewrite Ew in *. inversion IH; subst.
  constructor; [| done]. simpl in *. rewrite Hc. done.
Qed.

Lemma bahan_pengguna_kosong raw :
  hanya_pemisah raw = true -> bahan_pengguna raw = [].
Proof.
  intros H%split_hanya_pemisah. unfold bahan_pengguna.
  induction H as [| w ws Hw _ IH]; [done |].
  rewrite filter_cons_False; [exact IH |].
  intros E. apply E. by apply strip_semua_spasi.
Qed.

End Normalizer.

(** C7. For every raw text, the cleaning done at line 131 splits the text at
    commas and newlines (the pieces hold no separator and give the text back
    when joined), trims and lowercases every piece, discards the pieces that
    are empty once trimmed, and keeps the others in their order without
    removing repetitions: it agrees with the specification's pipeline, what
    it returns is trimmed, lowercase and not empty, the result for a text cut
    at a separator is the result for the left part followed by the result for
    the right part, and a text of separators and white space only gives the
    empty list. *)
Theorem C7_normalizer (raw : string) :
  bahan_pengguna raw = normalizer_spec raw
  ∧ PyStr.join "," (PyStr.re_split_comma_newline raw)
    = PyStr.satukan_pemisah raw
  ∧ Forall (fun w => PyStr.tanpa_pemisah PyStr.is_comma_or_newline w = true)
      (PyStr.re_split_comma_newline raw)
  ∧ Forall (fun x => x ≠ "" ∧ PyStr.strip x = x ∧ PyStr.lower x = x)
      (bahan_pengguna raw)
  ∧ (∀ a c b, PyStr.is_comma_or_newline c = true -> raw = a ++ String c b ->
       bahan_pengguna raw = (bahan_pengguna a ++ bahan_pengguna b)%list)
  ∧ (hanya_pemisah raw = true -> bahan_pengguna raw = []).
Proof.
  split; [apply bahan_pengguna_spec |].
  split; [apply PyStrFacts.join_re_split |].
  split; [apply PyStrFacts.split_by_tanpa_pemisah |].
  split; [apply bahan_pengguna_normal |].
  split; [| apply bahan_pengguna_kosong].
  intros a c b Hc ->. by apply bahan_pengguna_app.
Qed.

Example normalizer_contoh :
  bahan_pengguna "Bawang Putih, telur
  TELUR ,, kecap manis," = ["bawang putih"; "telur"; "telur"; "kecap manis"]
  ∧ bahan_pengguna "" = []
  ∧ bahan_pengguna " ,
, " = [].
Proof. repeat split; reflexivity. Qed.

(** ** Floating-point numbers *)

(** *** Rounding to the nearest integer *)

Lemma round_half_even_floor (q : Q) :
  round_half_even q = Qfloor q ∨ round_half_even q = (Qfloor q + 1)%Z.
Proof.
  unfold round_half_even.
  destruct (Qcompare _ _); [destruct (Z.even _) | |]; auto.
Qed.

Lemma round_half_even_mono (q1 q2 : Q) :
  (q1 <= q2)%Q -> (round_half_even q1 <= round_half_even q2)%Z.
Proof.
  intros Hq. pose proof (Qfloor_resp_le _ _ Hq) as Hf.
  destruct (Z.eq_dec (Qfloor q1) (Qfloor q2)) as [E | E].
  - unfold round_half_even. rewrite E.
    destruct (Qcompare_spec (q1 - inject_Z (Qfloor q2)) (1 # 2)) as [E1 | E1 | E1];
      destruct (Qcompare_spec (q2 - inject_Z (Qfloor q2)) (1 # 2)) as [E2 | E2 | E2];
      try destruct (Z.even (Qfloor q2)); try lia; exfalso; lra.
  - destruct (round_half_even_floor q1) as [-> | ->];
      destruct (round_half_even_floor q2) as [-> | ->]; lia.
Qed.

Lemma round_half_even_inject (q : Q) (z : Z) :
  (q == inject_Z z)%Q -> round_half_even q = z.
Proof.
  intros Hq. unfold round_half_even.
  rewrite (Qfloor_comp _ _ Hq), Qfloor_Z.
  destruct (Qcompare_spec (q - inject_Z z) (1 # 2)) as [E | E | E];
    [exfalso; lra | done | exfalso; lra].
Qed.

Lemma round_half_even_comp (q q' : Q) :
  (q == q')%Q -> round_half_even q = round_half_even q'.
Proof.
  intros H. unfold round_half_even. rewrite (Qfloor_comp _ _ H).
  assert (q - inject_Z (Qfloor q') == q' - inject_Z (Qfloor q'))%Q as E by lra.
  by rewrite (Qcompare_comp _ _ E _ _ (Qeq_refl _)).
Qed.

Lemma round_half_even_dekat (q : Q) :
  (inject_Z (round_half_even q) - (1 # 2) <= q)%Q
  ∧ (q <= inject_Z (round_half_even q) + (1 # 2))%Q.
Proof.
  pose proof (Qfloor_le q) as Hlo. pose proof (Qlt_floor q) as Hhi.
  rewrite inject_Z_plus in Hhi. change (inject_Z 1) with 1%Q in Hhi.
  unfold round_half_even.
  destruct (Qcompare_spec (q - inject_Z (Qfloor q)) (1 # 2)) as [E | E | E];
    [destruct (Z.even (Qfloor q)) | |];
    rewrite ?inject_Z_plus; change (inject_Z 1) with 1%Q; split; lra.
Qed.

Lemma round_half_even_ge (q : Q) (z : Z) :
  (inject_Z z <= q)%Q -> (z <= round_half_even q)%Z.
Proof.
  intros H. pose proof (round_half_even_mono _ _ H) as Hm.
  by rewrite (round_half_even_inject (inject_Z z) z) in Hm.
Qed.

Lemma round_half_even_le (q : Q) (z : Z) :
  (q <= inject_Z z)%Q -> (round_half_even q <= z)%Z.
Proof.
  intros H. pose proof (round_half_even_mono _ _ H) as Hm.
  by rewrite (round_half_even_inject (inject_Z z) z) in Hm.
Qed.

(** *** Powers of two *)

Lemma dua_pos (e : Z) : (0 < 2 ^ e)%Q.
Proof. by apply Qpower_0_lt. Qed.

Lemma dua_succ (e : Z) : (2 ^ (e + 1) == 2 * 2 ^ e)%Q.
Proof. rewrite Qpower_plus by done. rewrite Qpower_1_r. ring. Qed.

Lemma dua_mono (a b : Z) : (a <= b)%Z -> (2 ^ a <= 2 ^ b)%Q.
Proof. intros H. by apply Qpower_le_compat_l. Qed.

Lemma dua_inject (n : Z) : (0 <= n)%Z -> (inject_Z (2 ^ n) == 2 ^ n)%Q.
Proof. intros H. by rewrite Zpower_Qpower. Qed.

(** *** The exponent of a positive number *)

Lemma Q_as_div (q : Q) : (q == inject_Z (Qnum q) / inject_Z (Z.pos (Qden q)))%Q.
Proof. destruct q as [a b]. simpl. apply Qmake_Qdiv. Qed.

Lemma ilog2_kasar (q : Q) :
  (0 < q)%Q ->
  let d := (Z.log2 (Qnum q) - Z.log2 (Z.pos (Qden q)))%Z in
  (2 ^ (d - 1) <= q)%Q ∧ (q < 2 ^ (d + 1))%Q.
Proof.
  intros Hq d.
  assert (0 < Qnum q)%Z as Ha by (unfold Qlt in Hq; simpl in Hq; lia).
  assert (0 < Z.pos (Qden q))%Z as Hb by done.
  pose proof (Z.log2_spec _ Ha) as [Ha1 Ha2].
  pose proof (Z.log2_spec _ Hb) as [Hb1 Hb2].
  pose proof (Z.log2_nonneg (Qnum q)) as Hla.
  pose proof (Z.log2_nonneg (Z.pos (Qden q))) as Hlb.
  set (la := Z.log2 (Qnum q)) in *. set (lb := Z.log2 (Z.pos (Qden q))) in *.
  rewrite Zle_Qle, dua_inject in Ha1 by done.
  rewrite Zlt_Qlt, dua_inject in Ha2 by lia.
  rewrite Zle_Qle, dua_inject in Hb1 by done.
  rewrite Zlt_Qlt, dua_inject in Hb2 by lia.
  replace (Z.succ la) with (la + 1)%Z in Ha2 by lia.
  replace (Z.succ lb) with (lb + 1)%Z in Hb2 by lia.
  assert (q * inject_Z (Z.pos (Qden q)) == inject_Z (Qnum q))%Q as Hqb.
  { rewrite (Q_as_div q) at 1. rewrite Qmult_comm. apply Qmult_div_r.
    intros H0. rewrite H0 in Hb1. pose proof (dua_pos lb). lra. }
  assert (2 ^ (d - 1) * 2 ^ (lb + 1) == 2 ^ la)%Q as E1.
  { rewrite <- Qpower_plus by done.
    replace (d - 1 + (lb + 1))%Z with la by (unfold d; lia). reflexivity. }
  assert (2 ^ (d + 1) * 2 ^ lb == 2 ^ (la + 1))%Q as E2.
  { rewrite <- Qpower_plus by done.
    replace (d + 1 + lb)%Z with (la + 1)%Z by (unfold d; lia). reflexivity. }
  pose proof (dua_pos lb) as P1. pose proof (dua_pos (lb + 1)) as P2.
  pose proof (dua_pos (d - 1)) as P3. pose proof (dua_pos (d + 1)) as P4.
  set (A := inject_Z (Qnum q)) in *. set (B := inject_Z (Z.pos (Qden q))) in *.
  split.
  - apply Qnot_lt_le. intros Hlt.
    assert (q * B < 2 ^ (d - 1) * 2 ^ (lb + 1))%Q; [| lra].
    apply Qle_lt_trans with (q * 2 ^ (lb + 1))%Q.
    + apply Qmult_le_l; [done | lra].
    + apply Qmult_lt_r; [done | done].
  - apply Qnot_le_lt. intros Hle.
    assert (2 ^ (d + 1) * 2 ^ lb <= q * B)%Q; [| lra].
    apply Qle_trans with (q * 2 ^ lb)%Q.
    + apply Qmult_le_r; [done | done].
    + apply Qmult_le_l; [done | done].
Qed.

Lemma ilog2_spec (q : Q) :
  (0 < q)%Q -> (2 ^ ilog2 q <= q)%Q ∧ (q < 2 ^ (ilog2 q + 1))%Q.
Proof.
  intros Hq. destruct (ilog2_kasar q Hq) as [Hlo Hhi]. unfold ilog2.
  set (d := (Z.log2 (Qnum q) - Z.log2 (Z.pos (Qden q)))%Z) in *.
  destruct (Qle_bool (2 ^ d) q) eqn:E.
  - apply Qle_bool_iff in E. done.
  - split; [exact Hlo |]. replace (d - 1 + 1)%Z with d by lia.
    apply Qnot_le_lt. intros H. apply Qle_bool_iff in H. congruence.
Qed.

Lemma ilog2_unik (q : Q) (l : Z) :
  (2 ^ l <= q)%Q -> (q < 2 ^ (l + 1))%Q -> ilog2 q = l.
Proof.
  intros Hlo Hhi.
  assert (0 < q)%Q as Hq by (pose proof (dua_pos l); lra).
  destruct (ilog2_spec q Hq) as [Hlo' Hhi'].
  assert (ilog2 q < l + 1)%Z.
  { apply (Qpower_lt_compat_l_inv 2); [lra | done]. }
  assert (l < ilog2 q + 1)%Z.
  { apply (Qpower_lt_compat_l_inv 2); [lra | done]. }
  lia.
Qed.

Lemma ilog2_comp (q q' : Q) : (0 < q)%Q -> (q == q')%Q -> ilog2 q = ilog2 q'.
Proof.
  intros Hq E. destruct (ilog2_spec q Hq) as [Hlo Hhi].
  symmetry. apply ilog2_unik; by rewrite <- E.
Qed.

Lemma ilog2_mono (q1 q2 : Q) :
  (0 < q1)%Q -> (q1 <= q2)%Q -> (ilog2 q1 <= ilog2 q2)%Z.
Proof.
  intros H1 H12. assert (0 < q2)%Q as H2 by lra.
  destruct (ilog2_spec q1 H1) as [Hlo1 _].
  destruct (ilog2_spec q2 H2) as [_ Hhi2].
  assert (ilog2 q1 < ilog2 q2 + 1)%Z; [| lia].
  apply (Qpower_lt_compat_l_inv 2); [lra | done].
Qed.

(** *** Rounding to a float *)

Lemma bulat53_eq (q : Q) :
  (bulat53 q
   == inject_Z (round_half_even (q / 2 ^ (ilog2 q - 52))) * 2 ^ (ilog2 q - 52))%Q.
Proof. unfold bulat53. apply Qred_correct. Qed.

Lemma dua_52 (l : Z) : (2 ^ l == inject_Z (2 ^ 52) * 2 ^ (l - 52))%Q.
Proof.
  rewrite dua_inject by done. rewrite <- Qpower_plus by done.
  replace (52 + (l - 52))%Z with l by lia. reflexivity.
Qed.

Lemma dua_53 (l : Z) : (2 ^ (l + 1) == inject_Z (2 ^ 53) * 2 ^ (l - 52))%Q.
Proof.
  rewrite dua_inject by done. rewrite <- Qpower_plus by done.
  replace (53 + (l - 52))%Z with (l + 1)%Z by lia. reflexivity.
Qed.

(** The significand has 53 bits. *)
Lemma mantisa_batas (q : Q) :
  (0 < q)%Q ->
  (2 ^ 52 <= round_half_even (q / 2 ^ (ilog2 q - 52)) <= 2 ^ 53)%Z.
Proof.
  intros Hq. destruct (ilog2_spec q Hq) as [Hlo Hhi].
  rewrite dua_52 in Hlo. rewrite dua_53 in Hhi.
  pose proof (dua_pos (ilog2 q - 52)) as HP.
  split.
  - apply round_half_even_ge, Qle_shift_div_l; done.
  - apply round_half_even_le, Qle_shift_div_r; [done |]. by apply Qlt_le_weak.
Qed.

Lemma bulat53_batas (q : Q) :
  (0 < q)%Q -> (2 ^ ilog2 q <= bulat53 q)%Q ∧ (bulat53 q <= 2 ^ (ilog2 q + 1))%Q.
Proof.
  intros Hq. destruct (mantisa_batas q Hq) as [Hlo Hhi].
  rewrite bulat53_eq, dua_52, dua_53.
  pose proof (dua_pos (ilog2 q - 52)) as HP.
  rewrite Zle_Qle in Hlo. rewrite Zle_Qle in Hhi.
  split; apply Qmult_le_compat_r; (done || by apply Qlt_le_weak).
Qed.

Lemma bulat53_pos (q : Q) : (0 < q)%Q -> (0 < bulat53 q)%Q.
Proof.
  intros Hq. destruct (bulat53_batas q Hq) as [Hlo _].
  pose proof (dua_pos (ilog2 q)). lra.
Qed.

Lemma bulat53_mono (q1 q2 : Q) :
  (0 < q1)%Q -> (q1 <= q2)%Q -> (bulat53 q1 <= bulat53 q2)%Q.
Proof.
  intros H1 H12. assert (0 < q2)%Q as H2 by lra.
  pose proof (ilog2_mono q1 q2 H1 H12) as Hl.
  destruct (Z.eq_dec (ilog2 q1) (ilog2 q2)) as [E | E].
  - rewrite !bulat53_eq, E.
    pose proof (dua_pos (ilog2 q2 - 52)) as HP.
    apply Qmult_le_compat_r; [| by apply Qlt_le_weak].
    rewrite <- Zle_Qle. apply round_half_even_mono.
    apply Qmult_le_compat_r; [done |].
    apply Qlt_le_weak, Qinv_lt_0_compat, HP.
  - destruct (bulat53_batas q1 H1) as [_ Hhi].
    destruct (bulat53_batas q2 H2) as [Hlo _].
    pose proof (dua_mono (ilog2 q1 + 1) (ilog2 q2) ltac:(lia)). lra.
Qed.

Lemma bulat53_comp (q q' : Q) :
  (0 < q)%Q -> (q == q')%Q -> bulat53 q = bulat53 q'.
Proof.
  intros Hq E. unfold bulat53. rewrite <- (ilog2_comp q q' Hq E).
  apply Qred_complete.
  rewrite (round_half_even_comp (q / 2 ^ (ilog2 q - 52)) (q' / 2 ^ (ilog2 q - 52)));
    [reflexivity |].
  unfold Qdiv. apply Qmult_comp; [exact E | reflexivity].
Qed.

(** The relative error of the rounding is at most 2^-53. *)
Lemma bulat53_galat (q : Q) :
  (0 < q)%Q ->
  (q - q * (1 # 9007199254740992) <= bulat53 q)%Q
  ∧ (bulat53 q <= q + q * (1 # 9007199254740992))%Q.
Proof.
  intros Hq. destruct (ilog2_spec q Hq) as [Hlo _]. rewrite dua_52 in Hlo.
  pose proof (dua_pos (ilog2 q - 52)) as HP.
  set (P := (2 ^ (ilog2 q - 52))%Q) in *.
  destruct (round_half_even_dekat (q / P)) as [Ha Hb].
  rewrite bulat53_eq. fold P.
  set (m := inject_Z (round_half_even (q / P))) in *.
  assert (q / P * P == q)%Q as Hq'.
  { rewrite Qmult_comm. apply Qmult_div_r. lra. }
  assert ((m - (1 # 2)) * P <= q / P * P)%Q as Ha'
    by (apply Qmult_le_compat_r; [done | lra]).
  assert (q / P * P <= (m + (1 # 2)) * P)%Q as Hb'
    by (apply Qmult_le_compat_r; [done | lra]).
  rewrite Hq' in Ha', Hb'.
  change (inject_Z (2 ^ 52)) with (4503599627370496 # 1) in Hlo.
  split; lra.
Qed.

Lemma fl_0 (q : Q) : (q == 0)%Q -> fl q = 0%Q.
Proof. intros H. unfold fl. by rewrite (proj1 (Qeq_alt _ _) H). Qed.

Lemma fl_positif (q : Q) : (0 < q)%Q -> fl q = bulat53 q.
Proof.
  intros H. unfold fl.
  by rewrite (proj1 (Qgt_alt _ _) H).
Qed.

Lemma fl_negatif (q : Q) : (q < 0)%Q -> fl q = (- bulat53 (- q))%Q.
Proof. intros H. unfold fl. by rewrite (proj1 (Qlt_alt _ _) H). Qed.

Lemma fl_kasus (q : Q) :
  ((q == 0)%Q ∧ fl q = 0%Q)
  ∨ ((0 < q)%Q ∧ fl q = bulat53 q ∧ (0 < fl q)%Q)
  ∨ ((q < 0)%Q ∧ fl q = (- bulat53 (- q))%Q ∧ (fl q < 0)%Q).
Proof.
  destruct (Q_dec q 0) as [[H | H] | H].
  - right. right. split; [done |]. split; [by apply fl_negatif |].
    rewrite fl_negatif by done.
    assert (0 < - q)%Q as Hn by lra. pose proof (bulat53_pos _ Hn). lra.
  - right. left. split; [done |]. split; [by apply fl_positif |].
    rewrite fl_positif by done. by apply bulat53_pos.
  - left. split; [done | by apply fl_0].
Qed.

Lemma fl_pos_iff (q : Q) : (0 < fl q)%Q <-> (0 < q)%Q.
Proof.
  destruct (fl_kasus q) as [[H E] | [(H & E & Hp) | (H & E & Hn)]].
  - rewrite E. split; intros; lra.
  - split; done.
  - split; intros; lra.
Qed.

Lemma fl_nonneg (q : Q) : (0 <= q)%Q -> (0 <= fl q)%Q.
Proof.
  intros Hq. destruct (fl_kasus q) as [[H E] | [(H & E & Hp) | (H & E & Hn)]].
  - rewrite E. lra.
  - lra.
  - lra.
Qed.

Lemma fl_mono (q1 q2 : Q) : (q1 <= q2)%Q -> (fl q1 <= fl q2)%Q.
Proof.
  intros H12.
  destruct (fl_kasus q1) as [[H1 E1] | [(H1 & E1 & P1) | (H1 & E1 & N1)]];
    destruct (fl_kasus q2) as [[H2 E2] | [(H2 & E2 & P2) | (H2 & E2 & N2)]];
    try (exfalso; lra).
  - rewrite E1, E2. lra.
  - rewrite E1. lra.
  - rewrite E1, E2. by apply bulat53_mono.
  - rewrite E2. lra.
  - lra.
  - rewrite E1, E2.
    assert (bulat53 (- q2) <= bulat53 (- q1))%Q; [| lra].
    apply bulat53_mono; lra.
Qed.

Lemma fl_comp (q q' : Q) : (q == q')%Q -> fl q = fl q'.
Proof.
  intros E. destruct (fl_kasus q) as [[H1 E1] | [(H1 & E1 & _) | (H1 & E1 & _)]].
  - rewrite E1. symmetry. apply fl_0. by rewrite <- E.
  - rewrite E1, fl_positif by (by rewrite <- E). by apply bulat53_comp.
  - rewrite E1, fl_negatif by (by rewrite <- E).
    f_equal. apply bulat53_comp; [lra | by rewrite E].
Qed.

Lemma fl_galat (q : Q) :
  (0 <= q)%Q ->
  (q - q * (1 # 9007199254740992) <= fl q)%Q
  ∧ (fl q <= q + q * (1 # 9007199254740992))%Q.
Proof.
  intros Hq. destruct (fl_kasus q) as [[H E] | [(H & E & _) | (H & E & _)]].
  - rewrite E. split; lra.
  - rewrite E. by apply bulat53_galat.
  - exfalso. lra.
Qed.

(** *** Division, and line 83 *)

Lemma persen_mono (s1 s2 : Q) :
  (s1 <= s2)%Q -> (round2 (fmul s1 100) <= round2 (fmul s2 100))%Q.
Proof.
  intros H. unfold round2, perseratus, fmul. apply fl_mono.
  assert (round_half_even (fl (s1 * 100) * 100)
          <= round_half_even (fl (s2 * 100) * 100))%Z as Hz.
  { apply round_half_even_mono.
    assert (fl (s1 * 100) <= fl (s2 * 100))%Q by (apply fl_mono; lra). lra. }
  unfold Qle. simpl. lia.
Qed.

Lemma truediv_mono (a b c d : Z) :
  (0 < b)%Z -> (0 < d)%Z -> (a * d <= c * b)%Z -> (truediv a b <= truediv c d)%Q.
Proof.
  intros Hb Hd H. unfold truediv. apply fl_mono.
  destruct b as [| b | b]; [lia | | lia]. destruct d as [| d | d]; [lia | | lia].
  rewrite <- !Qmake_Qdiv. exact H.
Qed.

Lemma truediv_pos_iff (a b : Z) :
  (0 < b)%Z -> (0 < truediv a b)%Q <-> (0 < a)%Z.
Proof.
  intros Hb. unfold truediv. rewrite fl_pos_iff.
  destruct b as [| b | b]; [lia | | lia].
  rewrite <- Qmake_Qdiv. unfold Qlt. simpl. lia.
Qed.

Lemma truediv_sama (a : Z) : (0 < a)%Z -> truediv a a = 1%Q.
Proof.
  intros Ha. unfold truediv.
  rewrite (fl_comp (inject_Z a / inject_Z a) 1); [by vm_compute |].
  apply Qmult_inv_r. intros H. rewrite Zlt_Qlt, H in Ha. by apply Qlt_irrefl in Ha.
Qed.

Lemma truediv_0 (b : Z) : truediv 0 b = 0%Q.
Proof. unfold truediv. apply fl_0. unfold Qdiv. apply Qmult_0_l. Qed.

(** The relative error of the quotient. *)
Lemma truediv_galat (a b : Z) :
  (0 <= a)%Z -> (0 < b)%Z ->
  let q := (inject_Z a / inject_Z b)%Q in
  (q - q * (1 # 9007199254740992) <= truediv a b)%Q
  ∧ (truediv a b <= q + q * (1 # 9007199254740992))%Q.
Proof.
  intros Ha Hb q. apply fl_galat. unfold q.
  destruct b as [| b | b]; [lia | | lia].
  rewrite <- Qmake_Qdiv. unfold Qle. simpl. lia.
Qed.

Lemma persen_0 : round2 (fmul 0 100) = 0%Q.
Proof. by vm_compute. Qed.

Lemma persen_1 : round2 (fmul 1 100) = 100%Q.
Proof. by vm_compute. Qed.

Lemma persen_bounds (skor : Q) :
  (0 <= skor)%Q -> (skor <= 1)%Q ->
  (0 <= round2 (fmul skor 100))%Q ∧ (round2 (fmul skor 100) <= 100)%Q.
Proof.
  intros H0 H1. split.
  - apply Qle_trans with (round2 (fmul 0 100)); [by vm_compute |].
    by apply persen_mono.
  - apply Qle_trans with (round2 (fmul 1 100)); [| by vm_compute].
    by apply persen_mono.
Qed.

Lemma persen_pos (skor : Q) :
  (truediv 1 20000 <= skor)%Q -> (0 < round2 (fmul skor 100))%Q.
Proof.
  intros H. apply Qlt_le_trans with (round2 (fmul (truediv 1 20000) 100)).
  - by vm_compute.
  - by apply persen_mono.
Qed.

Lemma persen_kurang (skor : Q) :
  (skor <= truediv 19998 19999)%Q -> (round2 (fmul skor 100) < 100)%Q.
Proof.
  intros H. apply Qle_lt_trans with (round2 (fmul (truediv 19998 19999) 100)).
  - by apply persen_mono.
  - by vm_compute.
Qed.

Lemma persen_20001 : round2 (fmul (truediv 1 20001) 100) = 0%Q.
Proof. by vm_compute. Qed.

(** 23/160 is 0.14375, but the float nearest to it, times 100, is below
    14.375: the percentage is 14.37. With 19999 ingredients out of 20000 the
    percentage is 100. *)
Example persen_contoh :
  round2 (fmul (truediv 23 160) 100) = perseratus 1437
  ∧ round2 (fmul (truediv 1 20000) 100) = perseratus 1
  ∧ round2 (fmul (truediv 19999 20000) 100) = 100%Q
  ∧ round2 (fmul (truediv 1 3) 100) = perseratus 3333.
Proof. repeat split; by vm_compute. Qed.

(** ** The score *)

Lemma skor_cocok_nonneg (bahan_cocok bahan_resep_set : gset string) :
  (0 <= skor_cocok bahan_cocok bahan_resep_set)%Q.
Proof.
  unfold skor_cocok. case_decide as H; [| apply Qle_refl].
  apply Qle_trans with (truediv 0 (Z.of_nat (size bahan_resep_set))).
  - rewrite truediv_0. apply Qle_refl.
  - apply truediv_mono; lia.
Qed.

Lemma skor_cocok_le_1 (bahan_cocok bahan_resep_set : gset string) :
  bahan_cocok ⊆ bahan_resep_set ->
  (skor_cocok bahan_cocok bahan_resep_set <= 1)%Q.
Proof.
  intros Hsub. unfold skor_cocok. case_decide as H; [| discriminate].
  apply Qle_trans with (truediv (Z.of_nat (size bahan_resep_set))
                          (Z.of_nat (size bahan_resep_set))).
  - apply subseteq_size in Hsub. apply truediv_mono; [lia | lia |].
    apply Z.mul_le_mono_nonneg_r; lia.
  - rewrite truediv_sama by lia. apply Qle_refl.
Qed.

Lemma skor_cocok_pos (bahan_cocok bahan_resep_set : gset string) :
  (0 < skor_cocok bahan_cocok bahan_resep_set)%Q <->
  (0 < size bahan_cocok)%nat ∧ (0 < size bahan_resep_set)%nat.
Proof.
  unfold skor_cocok. case_decide as H.
  - rewrite truediv_pos_iff by lia. split; [intros ?; split; [lia | done] |].
    intros [? _]. lia.
  - split; [intros Hpos; by apply Qlt_irrefl in Hpos | intros [_ ?]; lia].
Qed.

Lemma skor_cocok_kosong (bahan_resep_set : gset string) :
  skor_cocok ∅ bahan_resep_set = 0%Q.
Proof.
  unfold skor_cocok. case_decide; [| reflexivity].
  rewrite size_empty. apply truediv_0.
Qed.

Lemma skor_cocok_mono (cocok cocok' R : gset string) :
  cocok ⊆ cocok' -> (skor_cocok cocok R <= skor_cocok cocok' R)%Q.
Proof.
  intros Hsub. unfold skor_cocok. case_decide as HR; [| apply Qle_refl].
  apply subseteq_size in Hsub. apply truediv_mono; [lia | lia |].
  apply Z.mul_le_mono_nonneg_r; lia.
Qed.

Lemma skor_cocok_penuh (R : gset string) :
  (0 < size R)%nat -> skor_cocok R R = 1%Q.
Proof.
  intros HR. unfold skor_cocok. rewrite decide_True by done.
  apply truediv_sama. lia.
Qed.

(** C1. For every recipe (a row of the catalog) and every set of user
    ingredients, the score computed at lines 50-56 is the number of the
    recipe's ingredients the user has divided by the number of the recipe's
    ingredients when the recipe has an ingredient, and 0 when it has none:
    it is the float nearest to that quotient, from which it differs by at
    most the quotient times 2^-53. It lies between 0 and 1, and it is 0 when
    the user has none of the recipe's ingredients. This is the score of the
    engine: the recipe gives a recommendation exactly when it is positive,
    and the recommendation carries it, times 100 and rounded. *)
Theorem C1_skor_cocok (iter_set : list string -> list string)
    (bahan_saya_set : gset string) (aturan_asosiasi : list (string * string))
    (row : Baris) :
  let bahan_resep_set : gset string := list_to_set (bahan_bahan row) in
  let bahan_cocok := bahan_saya_set ∩ bahan_resep_set in
  let hasil_bagi :=
    (inject_Z (Z.of_nat (size bahan_cocok))
     / inject_Z (Z.of_nat (size bahan_resep_set)))%Q in
  let skor := skor_cocok bahan_cocok bahan_resep_set in
  ((0 < size bahan_resep_set)%nat ->
     skor = fl hasil_bagi
     ∧ (hasil_bagi - hasil_bagi * (1 # 9007199254740992) <= skor)%Q
     ∧ (skor <= hasil_bagi + hasil_bagi * (1 # 9007199254740992))%Q)
  ∧ (size bahan_resep_set = 0%nat -> skor = 0%Q)
  ∧ (0 <= skor)%Q ∧ (skor <= 1)%Q
  ∧ (bahan_cocok = ∅ -> skor = 0%Q)
  ∧ ((0 < skor)%Q ->
       ∃ r, rekomendasi_baris iter_set bahan_saya_set aturan_asosiasi row = Some r
         ∧ skor_cocok_persen r = round2 (fmul skor 100))
  ∧ (¬ (0 < skor)%Q ->
       rekomendasi_baris iter_set bahan_saya_set aturan_asosiasi row = None).
Proof.
  intros bahan_resep_set bahan_cocok hasil_bagi skor. subst skor.
  split; [| split; [| split; [| split; [| split; [| split]]]]].
  - intros H. unfold skor_cocok. rewrite decide_True by done.
    split; [reflexivity |]. apply truediv_galat; lia.
  - intros H. unfold skor_cocok. rewrite decide_False; [done | lia].
  - apply skor_cocok_nonneg.
  - apply skor_cocok_le_1, intersection_subseteq_r.
  - intros ->. apply skor_cocok_kosong.
  - intros Hpos. unfold rekomendasi_baris.
    fold bahan_resep_set. fold bahan_cocok.
    destruct (Qlt_le_dec _ _) as [_ | Hle]; [by eexists | lra].
  - intros Hn. unfold rekomendasi_baris.
    fold bahan_resep_set. fold bahan_cocok.
    by destruct (Qlt_le_dec _ _).
Qed.

(** ** The order on strings and the missing ingredients *)

Section Urutan.
Import PyStr.

Lemma le_iff a b : le a b <-> a = b ∨ String_as_OT.lt a b.
Proof.
  unfold le, String.leb. destruct (String.compare a b) eqn:E.
  - apply String_as_OT.cmp_eq in E. tauto.
  - apply String_as_OT.cmp_lt in E. tauto.
  - split; [discriminate |]. intros [-> | H].
    + assert (String.compare b b = Eq) as Hb by by apply String_as_OT.cmp_eq.
      congruence.
    + apply String_as_OT.cmp_lt in H. unfold String_as_OT.cmp in H. congruence.
Qed.

Lemma lt_iff a b : lt a b <-> String_as_OT.lt a b.
Proof.
  unfold lt, String.ltb. rewrite <- String_as_OT.cmp_lt.
  unfold String_as_OT.cmp. destruct (String.compare a b); split; congruence.
Qed.

#[global] Instance le_trans : Transitive le.
Proof.
  intros a b c [-> | Hab]%le_iff [-> | Hbc]%le_iff; apply le_iff; auto.
  right. eapply String_as_OT.lt_trans; eauto.
Qed.

#[global] Instance le_total : Total le.
Proof. intros a b. apply String.leb_total. Qed.

Lemma le_neq_lt a b : le a b -> a ≠ b -> lt a b.
Proof. intros [-> | H]%le_iff Hne; [done | by apply lt_iff]. Qed.

Lemma sorted_perm l : sorted l ≡ₚ l.
Proof. apply merge_sort_Permutation. Qed.

(** Sorting a list without repetition gives a strictly increasing list. *)
Lemma sorted_naik l : NoDup l -> StronglySorted lt (sorted l).
Proof.
  intros Hnd. rewrite <- (sorted_perm l) in Hnd.
  pose proof (StronglySorted_merge_sort le l) as Hs. fold (sorted l) in Hs.
  induction Hs as [| x k Hk IH Hx]; [constructor |].
  apply NoDup_cons in Hnd as [Hnotin Hnd].
  constructor; [by apply IH |].
  apply Forall_forall. intros y Hy.
  apply le_neq_lt; [by eapply Forall_forall in Hx | intros ->; done].
Qed.

End Urutan.

(** ** Sorting and slicing *)

Section SortedFacts.
Context {A : Type} (key : A -> Q).

#[local] Instance turun_trans : Transitive (turun key).
Proof. intros a b c Hab Hbc. unfold turun in *. eapply Qle_trans; eauto. Qed.

Lemma sisip_perm x l : sisip key x l ≡ₚ x :: l.
Proof.
  induction l as [| y l IH]; simpl; [done |].
  destruct (Qle_bool (key y) (key x)); [done |].
  rewrite IH. apply Permutation_swap.
Qed.

Lemma sorted_reverse_perm l : sorted_reverse key l ≡ₚ l.
Proof.
  induction l as [| x l IH]; simpl; [done |]. by rewrite sisip_perm, IH.
Qed.

Lemma sisip_sorted x l :
  StronglySorted (turun key) l -> StronglySorted (turun key) (sisip key x l).
Proof.
  induction 1 as [| y l Hl IH Hy]; simpl; [by repeat constructor |].
  destruct (Qle_bool (key y) (key x)) eqn:E.
  - apply Qle_bool_iff in E.
    constructor; [by constructor |]. constructor; [exact E |].
    eapply Forall_impl; [exact Hy |]. intros z Hz. by transitivity y.
  - constructor; [exact IH |]. rewrite sisip_perm. constructor; [| exact Hy].
    unfold turun. destruct (Qlt_le_dec (key x) (key y)) as [H | H].
    + by apply Qlt_le_weak.
    + apply Qle_bool_iff in H. congruence.
Qed.

Lemma sorted_reverse_sorted l : StronglySorted (turun key) (sorted_reverse key l).
Proof.
  induction l as [| x l IH]; simpl; [constructor | by apply sisip_sorted].
Qed.

Lemma sisip_dengan_kunci p x l :
  dengan_kunci key p (sisip key x l) = dengan_kunci key p (x :: l).
Proof.
  unfold dengan_kunci. induction l as [| y l IH]; simpl; [done |].
  destruct (Qle_bool (key y) (key x)) eqn:E; [done |].
  rewrite filter_cons, IH, !filter_cons.
  destruct (decide (key y == p)%Q) as [Hy | Hy];
    destruct (decide (key x == p)%Q) as [Hx | Hx]; try done.
  exfalso. assert (Qle_bool (key y) (key x) = true); [| congruence].
  apply Qle_bool_iff. rewrite Hx, Hy. apply Qle_refl.
Qed.

(** The sort is stable: the elements that have the same key stay in the
    order they had. *)
Lemma sorted_reverse_stable p l :
  dengan_kunci key p (sorted_reverse key l) = dengan_kunci key p l.
Proof.
  induction l as [| x l IH]; simpl; [done |].
  rewrite sisip_dengan_kunci. unfold dengan_kunci in *.
  by rewrite !filter_cons, IH.
Qed.

Lemma dengan_kunci_prefix p (l1 l2 : list A) :
  l1 `prefix_of` l2 -> dengan_kunci key p l1 `prefix_of` dengan_kunci key p l2.
Proof.
  intros [k ->]. unfold dengan_kunci. rewrite filter_app. by apply prefix_app_r.
Qed.

Lemma sorted_prefix (l1 l2 : list A) :
  l1 `prefix_of` l2 -> StronglySorted (turun key) l2 ->
  StronglySorted (turun key) l1.
Proof. intros [k ->] H. by apply StronglySorted_app_1_l in H. Qed.

End SortedFacts.

Lemma slice_to_prefix {A : Type} (l : list A) (n : Z) : slice_to l n `prefix_of` l.
Proof. unfold slice_to. destruct (0 <=? n)%Z; apply prefix_take. Qed.

Lemma slice_to_length {A : Type} (l : list A) (n : Z) :
  length (slice_to l n)
  = if (0 <=? n)%Z then Nat.min (Z.to_nat n) (length l)
    else (length l - Z.to_nat (- n))%nat.
Proof.
  unfold slice_to. destruct (0 <=? n)%Z; rewrite length_take; [done | lia].
Qed.

(** ** The loop over the catalog *)

Section EngineFacts.
Variable iter_set : list string -> list string.

Lemma resep_loop_omap U aturan rows hasil :
  resep_loop iter_set U aturan rows hasil
  = (hasil ++ omap (rekomendasi_baris iter_set U aturan) rows)%list.
Proof.
  revert hasil. induction rows as [| row rows IH]; intros hasil; simpl.
  - by rewrite app_nil_r.
  - destruct (rekomendasi_baris iter_set U aturan row) as [r |]; rewrite IH;
      [by rewrite <- app_assoc | done].
Qed.

Lemma rekomendasi_resep_unfold bahan_saya df_resep aturan top_n :
  rekomendasi_resep iter_set bahan_saya df_resep aturan top_n
  = slice_to
      (sorted_reverse skor_cocok_persen
         (omap (rekomendasi_baris iter_set (bahan_saya_set bahan_saya) aturan)
            df_resep))
      top_n.
Proof. unfold rekomendasi_resep. by rewrite resep_loop_omap. Qed.

(** Every recommendation returned was built from a row of the catalog. *)
Lemma rekomendasi_resep_elem bahan_saya df_resep aturan top_n r :
  r ∈ rekomendasi_resep iter_set bahan_saya df_resep aturan top_n ->
  ∃ row, row ∈ df_resep
    ∧ rekomendasi_baris iter_set (bahan_saya_set bahan_saya) aturan row = Some r.
Proof.
  rewrite rekomendasi_resep_unfold. intros Hr.
  eapply elem_of_prefix in Hr; [| apply slice_to_prefix].
  rewrite sorted_reverse_perm in Hr. by apply list_elem_of_omap in Hr.
Qed.

End EngineFacts.

(** C2. For every catalog, user list, rule table and number [top_n] of
    recipes asked for (a number that is not negative), the list returned has
    at most [top_n] entries; it is sorted by decreasing percentage; and the
    entries that have the same percentage are in the order in which their
    recipes are in the catalog (they are the first of the recommendations
    with that percentage, taken in catalog order). The order and the
    stability hold for a negative [top_n] as well. *)
Theorem C2_urut_stabil (iter_set : list string -> list string)
    (bahan_saya : list string) (df_resep : list Baris)
    (aturan_asosiasi : list (string * string)) (top_n : Z) :
  let hasil :=
    omap (rekomendasi_baris iter_set (bahan_saya_set bahan_saya) aturan_asosiasi)
      df_resep in
  let keluaran :=
    rekomendasi_resep iter_set bahan_saya df_resep aturan_asosiasi top_n in
  ((0 <= top_n)%Z -> (Z.of_nat (length keluaran) <= top_n)%Z)
  ∧ keluaran `prefix_of` sorted_reverse skor_cocok_persen hasil
  ∧ sorted_reverse skor_cocok_persen hasil ≡ₚ hasil
  ∧ StronglySorted (turun skor_cocok_persen) keluaran
  ∧ (∀ p, dengan_kunci skor_cocok_persen p keluaran
          `prefix_of` dengan_kunci skor_cocok_persen p hasil).
Proof.
  intros hasil keluaran. subst keluaran. rewrite rekomendasi_resep_unfold.
  fold hasil. repeat split.
  - intros Hn. rewrite slice_to_length.
    destruct (0 <=? top_n)%Z eqn:E; lia.
  - apply slice_to_prefix.
  - apply sorted_reverse_perm.
  - eapply sorted_prefix; [apply slice_to_prefix | apply sorted_reverse_sorted].
  - intros p. rewrite <- (sorted_reverse_stable skor_cocok_persen p hasil).
    apply dengan_kunci_prefix, slice_to_prefix.
Qed.

(** The order is that of the floats of line 83. With 23 ingredients out of
    160 the percentage is 14.37, not 14.38 as the fraction 0.14375 would
    give: the recipe comes after one with 22 ingredients out of 153, which
    has 14.38, though it is before it in the catalog. *)
Example urutan_float :
  map (fun r => (r_judul_resep r, skor_cocok_persen r))
    (rekomendasi_resep urutan_contoh bahan_banyak
       [resep_besar 160; resep_sedang] [] 5)
  = [("Gado-gado", perseratus 1438); ("Rijsttafel", perseratus 1437)].
Proof. vm_compute. reflexivity. Qed.

(** C3, amended. With [top_n = 0] the list returned is empty. With a
    negative [top_n] the last [- top_n] entries of the sorted list are
    dropped: the list returned is empty exactly when at most [- top_n]
    recipes have a positive score. No value of [top_n] makes the function
    fail. *)
Theorem C3_top_n_nonpositif (iter_set : list string -> list string)
    (bahan_saya : list string) (df_resep : list Baris)
    (aturan_asosiasi : list (string * string)) :
  let hasil :=
    omap (rekomendasi_baris iter_set (bahan_saya_set bahan_saya) aturan_asosiasi)
      df_resep in
  rekomendasi_resep iter_set bahan_saya df_resep aturan_asosiasi 0 = []
  ∧ (∀ top_n : Z, (top_n < 0)%Z ->
       let keluaran :=
         rekomendasi_resep iter_set bahan_saya df_resep aturan_asosiasi top_n in
       keluaran
       = take (length hasil - Z.to_nat (- top_n))
           (sorted_reverse skor_cocok_persen hasil)
       ∧ length keluaran = (length hasil - Z.to_nat (- top_n))%nat
       ∧ (keluaran = [] <-> (length hasil <= Z.to_nat (- top_n))%nat)).
Proof.
  intros hasil. split.
  - rewrite rekomendasi_resep_unfold. reflexivity.
  - intros top_n Hn keluaran. subst keluaran.
    rewrite rekomendasi_resep_unfold. fold hasil.
    assert (length (sorted_reverse skor_cocok_persen hasil) = length hasil)
      as Hlen by (by rewrite sorted_reverse_perm).
    unfold slice_to. destruct (0 <=? top_n)%Z eqn:E; [lia |].
    rewrite Hlen. split; [done |]. split.
    + rewrite length_take. lia.
    + rewrite <- length_zero_iff_nil, length_take. lia.
Qed.

(** C3, as stated, fails: [top_n = -1] does not give the empty list when two
    recipes match. *)
Lemma C3_counterexample :
  (-1 <= 0)%Z
  ∧ rekomendasi_resep urutan_contoh ["garlic"] [resep_a; resep_b] [] (-1) ≠ [].
Proof. split; [lia |]. vm_compute. discriminate. Qed.

(** ** The smallest scores *)

(** With at most 20000 ingredients in the recipe, one ingredient in common
    gives a score that is at least the float nearest to 1/20000. *)
Lemma skor_cocok_besar (bahan_cocok bahan_resep_set : gset string) :
  (0 < size bahan_cocok)%nat -> (0 < size bahan_resep_set)%nat ->
  (Z.of_nat (size bahan_resep_set) <= 20000)%Z ->
  (truediv 1 20000 <= skor_cocok bahan_cocok bahan_resep_set)%Q.
Proof.
  intros Hc Hr Hle. unfold skor_cocok. rewrite decide_True by done.
  apply truediv_mono; lia.
Qed.

(** ** One row of the catalog *)

Lemma rekomendasi_baris_Some iter_set U aturan row r :
  rekomendasi_baris iter_set U aturan row = Some r ->
  let R : gset string := list_to_set (bahan_bahan row) in
  (0 < skor_cocok (U ∩ R) R)%Q
  ∧ r = {| r_judul_resep := judul_resep row;
           r_url_sumber := url_sumber row;
           skor_cocok_persen := round2 (fmul (skor_cocok (U ∩ R) R) 100);
           bahan_kurang := PyStr.sorted (elements (R ∖ U));
           r_cluster_persona := cluster_persona row;
           saran_cerdas := (saran_loop iter_set (U ∩ R) R aturan [] ∅).1 |}.
Proof.
  intros H R. unfold rekomendasi_baris in H. fold R in H.
  destruct (Qlt_le_dec 0 (skor_cocok (U ∩ R) R)) as [Hpos | Hle];
    [| discriminate].
  split; [exact Hpos | congruence].
Qed.

Lemma rekomendasi_baris_None iter_set U aturan row :
  rekomendasi_baris iter_set U aturan row = None <->
  U ∩ list_to_set (bahan_bahan row) = ∅.
Proof.
  unfold rekomendasi_baris.
  set (R := list_to_set (bahan_bahan row) : gset string).
  destruct (Qlt_le_dec 0 (skor_cocok (U ∩ R) R)) as [Hpos | Hle].
  - split; [discriminate |]. intros E. rewrite E in Hpos.
    apply skor_cocok_pos in Hpos as [Hc _]. rewrite size_empty in Hc. lia.
  - split; [intros _ | done].
    destruct (decide (U ∩ R = ∅)) as [E | E]; [done |].
    exfalso. apply Qle_not_lt in Hle. apply Hle, skor_cocok_pos.
    assert (size (U ∩ R) ≠ 0%nat) as Hc.
    { intros Hz. apply size_empty_iff in Hz. apply E. by apply leibniz_equiv. }
    assert (size (U ∩ R) <= size R)%nat
      by apply subseteq_size, intersection_subseteq_r.
    lia.
Qed.

(** C4, amended. Every recommendation returned comes from a recipe of the
    catalog that shares an ingredient with the user's set, so that its score
    is not 0; its percentage lies between 0 and 100, and it is strictly
    positive when the recipe has at most 20000 ingredients. *)
Theorem C4_skor_positif (iter_set : list string -> list string)
    (bahan_saya : list string) (df_resep : list Baris)
    (aturan_asosiasi : list (string * string)) (top_n : Z) (r : Rekomendasi) :
  r ∈ rekomendasi_resep iter_set bahan_saya df_resep aturan_asosiasi top_n ->
  ∃ row, row ∈ df_resep
    ∧ rekomendasi_baris iter_set (bahan_saya_set bahan_saya) aturan_asosiasi row
      = Some r
    ∧ let R : gset string := list_to_set (bahan_bahan row) in
      let U := bahan_saya_set bahan_saya in
      (∃ x, x ∈ U ∧ x ∈ R)
      ∧ (0 < skor_cocok (U ∩ R) R)%Q
      ∧ (0 <= skor_cocok_persen r)%Q ∧ (skor_cocok_persen r <= 100)%Q
      ∧ ((Z.of_nat (size R) <= 20000)%Z -> (0 < skor_cocok_persen r)%Q).
Proof.
  intros (row & Hrow & Hr)%rekomendasi_resep_elem.
  exists row. split; [exact Hrow |]. split; [exact Hr |].
  intros R U. apply rekomendasi_baris_Some in Hr as [Hpos ->].
  fold R U in Hpos |- *. cbn [skor_cocok_persen].
  pose proof (proj1 (skor_cocok_pos _ _) Hpos) as [Hc HR].
  split; [| split; [exact Hpos | ]].
  - apply size_pos_elem_of in Hc as [x Hx]. exists x. set_solver.
  - destruct (persen_bounds (skor_cocok (U ∩ R) R)) as [H0 H100].
    + apply skor_cocok_nonneg.
    + apply skor_cocok_le_1, intersection_subseteq_r.
    + split; [exact H0 |]. split; [exact H100 |].
      intros Hsmall. by apply persen_pos, skor_cocok_besar.
Qed.

Lemma C4_witness :
  rekomendasi_b ∈ rekomendasi_resep urutan_contoh ["Garlic "] [resep_a; resep_b] [] 5
  ∧ ∃ row, row ∈ [resep_a; resep_b]
    ∧ rekomendasi_baris urutan_contoh (bahan_saya_set ["Garlic "]) [] row
      = Some rekomendasi_b
    ∧ let R : gset string := list_to_set (bahan_bahan row) in
      let U := bahan_saya_set ["Garlic "] in
      (∃ x, x ∈ U ∧ x ∈ R)
      ∧ (0 < skor_cocok (U ∩ R) R)%Q
      ∧ (0 <= skor_cocok_persen rekomendasi_b)%Q
      ∧ (skor_cocok_persen rekomendasi_b <= 100)%Q
      ∧ ((Z.of_nat (size R) <= 20000)%Z ->
         (0 < skor_cocok_persen rekomendasi_b)%Q).
Proof.
  assert (rekomendasi_b
          ∈ rekomendasi_resep urutan_contoh ["Garlic "] [resep_a; resep_b] [] 5) as H.
  { vm_compute. apply list_elem_of_here. }
  split; [exact H |].
  exact (C4_skor_positif urutan_contoh ["Garlic "] [resep_a; resep_b] [] 5
           rekomendasi_b H).
Defined.

(** ** A recipe with many ingredients *)

Lemma nama_inj p q : nama p = nama q -> p = q.
Proof.
  revert q. induction p as [p IH | p IH |]; intros [q | q |]; simpl;
    intros H; try discriminate; try reflexivity;
    injection H as H; apply IH in H; by subst.
Qed.

Lemma resep_besar_NoDup n : NoDup (bahan_bahan (resep_besar n)).
Proof.
  simpl. apply (NoDup_fmap_2_strong (fun i => nama (Pos.of_nat i))).
  - intros i j Hi Hj Heq. apply nama_inj in Heq.
    apply list_elem_of_In, in_seq in Hi. apply list_elem_of_In, in_seq in Hj.
    apply (f_equal Pos.to_nat) in Heq. rewrite !Nat2Pos.id in Heq by lia. done.
  - apply NoDup_ListNoDup, seq_NoDup.
Qed.

Lemma resep_besar_size n :
  size (list_to_set (bahan_bahan (resep_besar n)) : gset string) = N.to_nat n.
Proof.
  rewrite size_list_to_set by apply resep_besar_NoDup.
  simpl. by rewrite length_map, length_seq.
Qed.

Lemma resep_besar_b n :
  (0 < n)%N -> "b" ∈ (list_to_set (bahan_bahan (resep_besar n)) : gset string).
Proof.
  intros Hn. apply elem_of_list_to_set. simpl.
  apply list_elem_of_In, in_map_iff. exists 1%nat. split; [done |].
  apply in_seq. lia.
Qed.

Lemma irisan_tunggal (R : gset string) (x : string) :
  x ∈ R -> {[x]} ∩ R = ({[x]} : gset string).
Proof.
  intros H. apply set_eq. intros y.
  rewrite elem_of_intersection, elem_of_singleton.
  split; [by intros [-> _] | by intros ->].
Qed.

Lemma bahan_saya_set_b : bahan_saya_set ["b"] = {["b"]}.
Proof. unfold bahan_saya_set. simpl. apply (right_id_L ∅ (∪)). Qed.

(** C4, as stated, fails: a recipe with 20001 ingredients of which the user
    has one has a score that is not 0, is returned, and its percentage,
    rounded to two decimals, is 0. *)
Lemma C4_counterexample :
  ∃ r, r ∈ rekomendasi_resep urutan_contoh ["b"] [resep_besar 20001] [] 5
    ∧ ¬ (0 < skor_cocok_persen r)%Q.
Proof.
  pose proof (irisan_tunggal _ _ (resep_besar_b 20001 eq_refl)) as Hcocok.
  rewrite <- bahan_saya_set_b in Hcocok at 1.
  destruct (rekomendasi_baris urutan_contoh (bahan_saya_set ["b"]) []
              (resep_besar 20001)) as [r |] eqn:E.
  - exists r. split.
    + rewrite rekomendasi_resep_unfold. cbn [omap list_omap].
      rewrite E. apply list_elem_of_here.
    + apply rekomendasi_baris_Some in E as [_ ->].
      cbn [skor_cocok_persen]. rewrite Hcocok. unfold skor_cocok.
      rewrite size_singleton, resep_besar_size.
      rewrite decide_True by (apply Nat2Z.inj_lt; rewrite N_nat_Z; done).
      rewrite N_nat_Z. change (Z.of_nat 1) with 1%Z.
      change (Z.of_N 20001) with 20001%Z. rewrite persen_20001.
      apply Qlt_irrefl.
  - apply rekomendasi_baris_None in E. rewrite Hcocok in E.
    apply (f_equal size) in E. rewrite size_singleton, size_empty in E.
    discriminate.
Qed.

(** ** The missing ingredients *)

Lemma bahan_kurang_spec (R U : gset string) :
  let kurang := PyStr.sorted (elements (R ∖ U)) in
  (∀ x, x ∈ kurang <-> x ∈ R ∧ x ∉ U)
  ∧ list_to_set kurang = R ∖ U
  ∧ NoDup kurang
  ∧ StronglySorted PyStr.lt kurang
  ∧ Forall (fun x => x ∉ U) kurang.
Proof.
  intros kurang.
  assert (∀ x, x ∈ kurang <-> x ∈ R ∧ x ∉ U) as Hin.
  { intros x. unfold kurang. rewrite sorted_perm, elem_of_elements.
    apply elem_of_difference. }
  split; [exact Hin |]. split; [| split; [| split]].
  - apply set_eq. intros x. rewrite elem_of_list_to_set, Hin.
    symmetry. apply elem_of_difference.
  - unfold kurang. rewrite sorted_perm. apply NoDup_elements.
  - apply sorted_naik, NoDup_elements.
  - apply Forall_forall. intros x Hx. by apply Hin in Hx as [_ Hx].
Qed.

(** A list of trimmed lowercase entries is taken as it is. *)
Lemma bahan_saya_set_id bahan_saya :
  Forall (fun x => PyStr.strip x = x ∧ PyStr.lower x = x) bahan_saya ->
  bahan_saya_set bahan_saya = list_to_set bahan_saya.
Proof.
  unfold bahan_saya_set. induction 1 as [| x l [Hs Hl] _ IH]; [done |].
  cbn [map list_to_set]. by rewrite Hs, Hl, IH.
Qed.

(** C5. For every recommendation returned, for the recipe it comes from and
    the user's set (the set of the entries of the user's list, which the
    engine trims and lowercases), the missing ingredients are the ingredients
    of the recipe that are not in the user's set, each once, in strictly
    increasing lexicographic order, and none of them is in the user's set. *)
Theorem C5_bahan_kurang (iter_set : list string -> list string)
    (bahan_saya : list string) (df_resep : list Baris)
    (aturan_asosiasi : list (string * string)) (top_n : Z) (r : Rekomendasi) :
  r ∈ rekomendasi_resep iter_set bahan_saya df_resep aturan_asosiasi top_n ->
  ∃ row, row ∈ df_resep
    ∧ rekomendasi_baris iter_set (bahan_saya_set bahan_saya) aturan_asosiasi row
      = Some r
    ∧ let R : gset string := list_to_set (bahan_bahan row) in
      let U := bahan_saya_set bahan_saya in
      (Forall (fun x => PyStr.strip x = x ∧ PyStr.lower x = x) bahan_saya ->
         U = list_to_set bahan_saya)
      ∧ (∀ x, x ∈ bahan_kurang r <-> x ∈ R ∧ x ∉ U)
      ∧ list_to_set (bahan_kurang r) = R ∖ U
      ∧ NoDup (bahan_kurang r)
      ∧ StronglySorted PyStr.lt (bahan_kurang r)
      ∧ Forall (fun x => x ∉ U) (bahan_kurang r).
Proof.
  intros (row & Hrow & Hr)%rekomendasi_resep_elem.
  exists row. split; [exact Hrow |]. split; [exact Hr |].
  intros R U. split; [apply bahan_saya_set_id |].
  apply rekomendasi_baris_Some in Hr as [_ ->].
  cbn [bahan_kurang]. apply bahan_kurang_spec.
Qed.

Lemma C5_witness :
  rekomendasi_b ∈ rekomendasi_resep urutan_contoh ["Garlic "] [resep_a; resep_b] [] 5
  ∧ ∃ row, row ∈ [resep_a; resep_b]
    ∧ rekomendasi_baris urutan_contoh (bahan_saya_set ["Garlic "]) [] row
      = Some rekomendasi_b
    ∧ let R : gset string := list_to_set (bahan_bahan row) in
      let U := bahan_saya_set ["Garlic "] in
      (Forall (fun x => PyStr.strip x = x ∧ PyStr.lower x = x) ["Garlic "] ->
         U = list_to_set ["Garlic "])
      ∧ (∀ x, x ∈ bahan_kurang rekomendasi_b <-> x ∈ R ∧ x ∉ U)
      ∧ list_to_set (bahan_kurang rekomendasi_b) = R ∖ U
      ∧ NoDup (bahan_kurang rekomendasi_b)
      ∧ StronglySorted PyStr.lt (bahan_kurang rekomendasi_b)
      ∧ Forall (fun x => x ∉ U) (bahan_kurang rekomendasi_b).
Proof.
  assert (rekomendasi_b
          ∈ rekomendasi_resep urutan_contoh ["Garlic "] [resep_a; resep_b] [] 5) as H.
  { vm_compute. apply list_elem_of_here. }
  split; [exact H |].
  exact (C5_bahan_kurang urutan_contoh ["Garlic "] [resep_a; resep_b] [] 5
           rekomendasi_b H).
Defined.

Example bahan_kurang_contoh :
  map bahan_kurang
    (rekomendasi_resep urutan_contoh ["garlic"; "rice"] [resep_a; resep_b] [] 5)
  = [["onion"]; ["onion"; "salt"]].
Proof. vm_compute. reflexivity. Qed.

(** ** The suggestions *)

Section LayakFacts.
Variables bahan_cocok bahan_resep_set : gset string.

#[local] Abbreviation layak := (aturan_layak bahan_cocok bahan_resep_set).

Lemma aturan_layak_sublist items d : layak items d `sublist_of` items.
Proof.
  revert d. induction items as [| a items IH]; intros d; simpl; [done |].
  destruct (decide _); [by apply sublist_skip | by apply sublist_cons].
Qed.

Lemma aturan_layak_terpicu items d :
  Forall (fun a => (antecedent_of (a.1) ⊆ bahan_cocok)
                   ∧ (a.2 ∉ bahan_resep_set) ∧ (a.2 ∉ d))
    (layak items d).
Proof.
  revert d. induction items as [| a items IH]; intros d; simpl; [done |].
  destruct (decide _) as [Ha | Ha]; [| by apply IH].
  constructor; [exact Ha |].
  eapply Forall_impl; [apply IH |]. intros b (H1 & H2 & H3).
  repeat split; try done. set_solver.
Qed.

Lemma aturan_layak_NoDup items d : NoDup (layak items d).*2.
Proof.
  revert d. induction items as [| a items IH]; intros d; simpl;
    [constructor |].
  destruct (decide _) as [Ha | Ha]; [| by apply IH].
  cbn [fmap list_fmap]. constructor; [| by apply IH].
  intros Hin. apply list_elem_of_fmap in Hin as (b & Hb & Hin).
  pose proof (aturan_layak_terpicu items (d ∪ {[a.2]})) as Hall.
  eapply Forall_forall in Hall as (_ & _ & Hnot); [| exact Hin].
  apply Hnot. rewrite Hb. set_solver.
Qed.

End LayakFacts.

Section SaranFacts.
Variable iter_set : list string -> list string.
Variables bahan_cocok bahan_resep_set : gset string.

#[local] Abbreviation layak := (aturan_layak bahan_cocok bahan_resep_set).
#[local] Abbreviation loop := (saran_loop iter_set bahan_cocok bahan_resep_set).

(** The loop returns the texts of the first rules that fit, as many as are
    still allowed. *)
Lemma saran_loop_layak items saran_cerdas_list bahan_disarankan :
  (length saran_cerdas_list < 2)%nat ->
  (loop items saran_cerdas_list bahan_disarankan).1
  = (saran_cerdas_list
     ++ map (saran_teks iter_set)
          (take (2 - length saran_cerdas_list) (layak items bahan_disarankan)))%list.
Proof.
  revert saran_cerdas_list bahan_disarankan.
  induction items as [| a items IH]; intros acc d Hacc; simpl.
  - by rewrite take_nil, app_nil_r.
  - destruct (decide (terpicu bahan_cocok bahan_resep_set d a)) as [Ha | Ha].
    + rewrite length_app. simpl.
      destruct (decide (2 <= length acc + 1)%nat) as [H2 | H2].
      * assert (length acc = 1%nat) as -> by lia. done.
      * assert (length acc = 0%nat) as Hz by lia.
        rewrite IH by (rewrite length_app; simpl; lia).
        rewrite length_app, Hz. simpl. by rewrite <- app_assoc.
    + by apply IH.
Qed.

(** Once two suggestions have been made, the rest of the table is not
    read. *)
Lemma saran_loop_berhenti items sisa saran_cerdas_list bahan_disarankan :
  (length saran_cerdas_list < 2)%nat ->
  (2 <= length (loop items saran_cerdas_list bahan_disarankan).1)%nat ->
  loop (items ++ sisa) saran_cerdas_list bahan_disarankan
  = loop items saran_cerdas_list bahan_disarankan.
Proof.
  revert saran_cerdas_list bahan_disarankan.
  induction items as [| a items IH]; intros acc d Hacc Hfull; simpl in *.
  - lia.
  - destruct (decide (terpicu bahan_cocok bahan_resep_set d a)) as [Ha | Ha].
    + destruct (decide (2 <= length (acc ++ [saran_teks iter_set a]))%nat)
        as [H2 | H2]; [done |].
      apply IH; [lia | done].
    + by apply IH.
Qed.

End SaranFacts.

(** C6. For every recommendation returned, its suggestions are the texts of
    the first two rules of the table, read in its order, whose antecedent is
    included in the matched ingredients, whose consequent is not an ingredient
    of the recipe and was not suggested by an earlier rule: there are at most
    two of them, their consequents differ, and what follows the rule that
    gives the second one in the table is not read. *)
Theorem C6_saran_cerdas (iter_set : list string -> list string)
    (bahan_saya : list string) (df_resep : list Baris)
    (aturan_asosiasi : list (string * string)) (top_n : Z) (r : Rekomendasi) :
  r ∈ rekomendasi_resep iter_set bahan_saya df_resep aturan_asosiasi top_n ->
  ∃ row, row ∈ df_resep
    ∧ rekomendasi_baris iter_set (bahan_saya_set bahan_saya) aturan_asosiasi row
      = Some r
    ∧ let R : gset string := list_to_set (bahan_bahan row) in
      let cocok := bahan_saya_set bahan_saya ∩ R in
      let dipakai := take 2 (aturan_layak cocok R aturan_asosiasi ∅) in
      saran_cerdas r = map (saran_teks iter_set) dipakai
      ∧ (length (saran_cerdas r) <= 2)%nat
      ∧ dipakai `sublist_of` aturan_asosiasi
      ∧ Forall (fun a => (antecedent_of (a.1) ⊆ cocok) ∧ (a.2 ∉ R)) dipakai
      ∧ NoDup dipakai.*2
      ∧ (∀ awal sisa, aturan_asosiasi = (awal ++ sisa)%list ->
           length (saran_loop iter_set cocok R awal [] ∅).1 = 2%nat ->
           saran_cerdas r = (saran_loop iter_set cocok R awal [] ∅).1).
Proof.
  intros (row & Hrow & Hr)%rekomendasi_resep_elem.
  exists row. split; [exact Hrow |]. split; [exact Hr |].
  intros R cocok dipakai. apply rekomendasi_baris_Some in Hr as [_ ->].
  fold R cocok. cbn [saran_cerdas].
  assert ((saran_loop iter_set cocok R aturan_asosiasi [] ∅).1
          = map (saran_teks iter_set) dipakai) as Hsaran.
  { rewrite saran_loop_layak by (simpl; lia). reflexivity. }
  assert (dipakai `prefix_of` aturan_layak cocok R aturan_asosiasi ∅) as Hpre
    by apply prefix_take.
  split; [exact Hsaran |]. split; [| split; [| split; [| split]]].
  - rewrite Hsaran, length_map. unfold dipakai. rewrite length_take. lia.
  - etransitivity; [apply sublist_take | apply aturan_layak_sublist].
  - destruct Hpre as [k Hk].
    pose proof (aturan_layak_terpicu cocok R aturan_asosiasi ∅) as Hall.
    rewrite Hk in Hall. apply Forall_app in Hall as [Hall _].
    eapply Forall_impl; [exact Hall |]. intros a (H1 & H2 & _). done.
  - destruct Hpre as [k Hk].
    pose proof (aturan_layak_NoDup cocok R aturan_asosiasi ∅) as Hnd.
    rewrite Hk, fmap_app in Hnd. by apply NoDup_app in Hnd as [Hnd _].
  - intros awal sisa -> Hfull.
    by rewrite saran_loop_berhenti by (simpl; lia).
Qed.

Lemma C6_witness :
  rekomendasi_saran
  ∈ rekomendasi_resep urutan_contoh ["Garlic"; " onion"] [resep_a; resep_b]
      aturan_contoh 1
  ∧ ∃ row, row ∈ [resep_a; resep_b]
    ∧ rekomendasi_baris urutan_contoh (bahan_saya_set ["Garlic"; " onion"])
        aturan_contoh row
      = Some rekomendasi_saran
    ∧ let R : gset string := list_to_set (bahan_bahan row) in
      let cocok := bahan_saya_set ["Garlic"; " onion"] ∩ R in
      let dipakai := take 2 (aturan_layak cocok R aturan_contoh ∅) in
      saran_cerdas rekomendasi_saran = map (saran_teks urutan_contoh) dipakai
      ∧ (length (saran_cerdas rekomendasi_saran) <= 2)%nat
      ∧ dipakai `sublist_of` aturan_contoh
      ∧ Forall (fun a => (antecedent_of (a.1) ⊆ cocok) ∧ (a.2 ∉ R)) dipakai
      ∧ NoDup dipakai.*2
      ∧ (∀ awal sisa, aturan_contoh = (awal ++ sisa)%list ->
           length (saran_loop urutan_contoh cocok R awal [] ∅).1 = 2%nat ->
           saran_cerdas rekomendasi_saran
           = (saran_loop urutan_contoh cocok R awal [] ∅).1).
Proof.
  assert (rekomendasi_saran
          ∈ rekomendasi_resep urutan_contoh ["Garlic"; " onion"] [resep_a; resep_b]
              aturan_contoh 1) as H.
  { vm_compute. apply list_elem_of_here. }
  split; [exact H |].
  exact (C6_saran_cerdas urutan_contoh ["Garlic"; " onion"] [resep_a; resep_b]
           aturan_contoh 1 rekomendasi_saran H).
Defined.

Example aturan_layak_contoh :
  aturan_layak {["garlic"; "onion"]} {["garlic"; "onion"]} aturan_contoh ∅
  = [("garlic", "ginger"); ("garlic,onion", "salt"); ("garlic,onion", "chili");
     ("garlic", "rice")].
Proof. vm_compute. reflexivity. Qed.

(** ** The user's list is cleaned again by the engine *)

Lemma bahan_saya_set_cons a l :
  bahan_saya_set (a :: l) = {[PyStr.lower (PyStr.strip a)]} ∪ bahan_saya_set l.
Proof. reflexivity. Qed.

Lemma bahan_saya_set_sama l1 l2 :
  sama_bahan l1 l2 -> bahan_saya_set l1 = bahan_saya_set l2.
Proof.
  induction 1 as [l | l1 l2 _ IH | l1 l2 l3 _ IH1 _ IH2 | a l1 l2 _ IH
                 | a b l Hab | a b l Hab | a l | l1 l2 Hperm].
  - reflexivity.
  - by symmetry.
  - by etransitivity.
  - by rewrite !bahan_saya_set_cons, IH.
  - rewrite !bahan_saya_set_cons, !PyStrFacts.lower_strip. by rewrite Hab.
  - rewrite !bahan_saya_set_cons. by rewrite Hab.
  - rewrite !bahan_saya_set_cons. by rewrite (assoc_L (∪)), (idemp_L (∪)).
  - unfold bahan_saya_set. apply list_to_set_perm_L. by apply Permutation_map.
Qed.

(** What the user's set holds is trimmed and in lower case. *)
Lemma bahan_saya_set_normal bahan_saya x :
  x ∈ bahan_saya_set bahan_saya ->
  PyStr.strip x = x ∧ PyStr.lower x = x.
Proof.
  unfold bahan_saya_set. rewrite elem_of_list_to_set.
  intros (a & <- & _)%list_elem_of_In%in_map_iff.
  apply PyStrFacts.normal_form.
Qed.

(** The user's set holds the entries of the list, trimmed and lowercased,
    and nothing else. *)
Lemma bahan_saya_set_elem bahan_saya x :
  x ∈ bahan_saya_set bahan_saya
  <-> ∃ a, a ∈ bahan_saya ∧ x = PyStr.lower (PyStr.strip a).
Proof.
  unfold bahan_saya_set. rewrite elem_of_list_to_set, list_elem_of_In, in_map_iff.
  split; intros (a & Ha & Hb); exists a.
  - by apply list_elem_of_In in Hb.
  - by apply list_elem_of_In in Ha.
Qed.

(** C9. The engine cleans the user's list itself (line 41): the set it works
    with holds exactly the entries of the list, each trimmed and lowercased,
    an entry that occurs more than once being held once; what it trims and
    lowercases again is not changed by that. Hence two lists that differ
    only in letter case, surrounding white space, repetition or order of
    their entries give the same set and the same result, for every catalog,
    rule table and [top_n]. *)
Theorem C9_normalisasi_ulang (iter_set : list string -> list string)
    (bahan_saya1 bahan_saya2 : list string) (df_resep : list Baris)
    (aturan_asosiasi : list (string * string)) (top_n : Z) :
  sama_bahan bahan_saya1 bahan_saya2 ->
  (∀ x, x ∈ bahan_saya_set bahan_saya1
        <-> ∃ a, a ∈ bahan_saya1 ∧ x = PyStr.lower (PyStr.strip a))
  ∧ (∀ x, x ∈ bahan_saya_set bahan_saya1 ->
          PyStr.strip x = x ∧ PyStr.lower x = x)
  ∧ (∀ x, x ∈ bahan_saya_set bahan_saya1
        <-> ∃ b, b ∈ bahan_saya2 ∧ x = PyStr.lower (PyStr.strip b))
  ∧ bahan_saya_set bahan_saya1 = bahan_saya_set bahan_saya2
  ∧ rekomendasi_resep iter_set bahan_saya1 df_resep aturan_asosiasi top_n
    = rekomendasi_resep iter_set bahan_saya2 df_resep aturan_asosiasi top_n.
Proof.
  intros H%bahan_saya_set_sama.
  split; [intros x; apply bahan_saya_set_elem |].
  split; [intros x; apply bahan_saya_set_normal |].
  split; [intros x; rewrite H; apply bahan_saya_set_elem |].
  split; [exact H |].
  unfold rekomendasi_resep. by rewrite H.
Qed.

Lemma C9_witness :
  sama_bahan ["Garlic "; "onion"; "garlic"] ["onion"; "garlic"]
  ∧ (∀ x, x ∈ bahan_saya_set ["Garlic "; "onion"; "garlic"]
        <-> ∃ a, a ∈ ["Garlic "; "onion"; "garlic"]
                 ∧ x = PyStr.lower (PyStr.strip a))
  ∧ (∀ x, x ∈ bahan_saya_set ["Garlic "; "onion"; "garlic"] ->
          PyStr.strip x = x ∧ PyStr.lower x = x)
  ∧ (∀ x, x ∈ bahan_saya_set ["Garlic "; "onion"; "garlic"]
        <-> ∃ b, b ∈ ["onion"; "garlic"] ∧ x = PyStr.lower (PyStr.strip b))
  ∧ bahan_saya_set ["Garlic "; "onion"; "garlic"] = bahan_saya_set ["onion"; "garlic"]
  ∧ rekomendasi_resep urutan_contoh ["Garlic "; "onion"; "garlic"]
      [resep_a; resep_b] aturan_contoh 5
    = rekomendasi_resep urutan_contoh ["onion"; "garlic"]
        [resep_a; resep_b] aturan_contoh 5.
Proof.
  assert (sama_bahan ["Garlic "; "onion"; "garlic"] ["onion"; "garlic"]) as H.
  { apply sama_trans with ["garlic "; "onion"; "garlic"];
      [apply sama_huruf; reflexivity |].
    apply sama_trans with ["garlic"; "onion"; "garlic"];
      [apply sama_spasi; reflexivity |].
    apply sama_trans with ["garlic"; "garlic"; "onion"];
      [apply sama_skip, sama_urutan, perm_swap |].
    apply sama_trans with ["garlic"; "onion"]; [apply sama_ganda |].
    apply sama_urutan, perm_swap. }
  split; [exact H |].
  exact (C9_normalisasi_ulang urutan_contoh _ _ [resep_a; resep_b] aturan_contoh 5 H).
Defined.

(** ** Rules that cannot give a suggestion *)

Section Lewati.
Variable iter_set : list string -> list string.

(** A rule whose antecedent is not included in the matched ingredients can
    be taken out of the table. *)
Lemma saran_loop_lewati cocok R awal a sisa saran_cerdas_list bahan_disarankan :
  ¬ antecedent_of (a.1) ⊆ cocok ->
  saran_loop iter_set cocok R (awal ++ a :: sisa) saran_cerdas_list bahan_disarankan
  = saran_loop iter_set cocok R (awal ++ sisa) saran_cerdas_list bahan_disarankan.
Proof.
  intros Ha. revert saran_cerdas_list bahan_disarankan.
  induction awal as [| b awal IH]; intros acc d; simpl.
  - rewrite decide_False; [done |]. by intros [? _].
  - by rewrite !IH.
Qed.

Lemma rekomendasi_baris_lewati U awal a sisa row :
  ¬ antecedent_of (a.1) ⊆ U ∩ list_to_set (bahan_bahan row) ->
  rekomendasi_baris iter_set U (awal ++ a :: sisa) row
  = rekomendasi_baris iter_set U (awal ++ sisa) row.
Proof.
  intros Ha. unfold rekomendasi_baris. by rewrite saran_loop_lewati.
Qed.

Lemma omap_sama {A B : Type} (f g : A -> option B) (l : list A) :
  (∀ x, x ∈ l -> f x = g x) -> omap f l = omap g l.
Proof.
  intros H. apply list_omap_ext, Forall2_same_length_lookup.
  split; [done |]. intros i x y Hx Hy. rewrite Hx in Hy. injection Hy as <-.
  apply H. by eapply list_elem_of_lookup_2.
Qed.

Lemma rekomendasi_resep_lewati bahan_saya df_resep awal a sisa top_n :
  (∀ row, row ∈ df_resep ->
     ¬ antecedent_of (a.1)
       ⊆ bahan_saya_set bahan_saya ∩ list_to_set (bahan_bahan row)) ->
  rekomendasi_resep iter_set bahan_saya df_resep (awal ++ a :: sisa) top_n
  = rekomendasi_resep iter_set bahan_saya df_resep (awal ++ sisa) top_n.
Proof.
  intros H. rewrite !rekomendasi_resep_unfold. do 2 f_equal.
  apply omap_sama. intros row Hrow. by apply rekomendasi_baris_lewati, H.
Qed.

End Lewati.

(** ** How the keys of the rule table are read *)




Example kunci_contoh :
  PyStr.split_comma "Garlic, onion" = ["Garlic"; " onion"]
  ∧ rekomendasi_resep urutan_contoh ["garlic"; "onion"] [resep_b]
      [("garlic, onion", "chili")] 5
    = rekomendasi_resep urutan_contoh ["garlic"; "onion"] [resep_b] [] 5
  ∧ map saran_cerdas
      (rekomendasi_resep urutan_contoh ["garlic"; "onion"] [resep_b]
         [("garlic,onion", "chili")] 5)
    = [["`onion, garlic` banyak digunakan dengan **`chili`**, Anda mungkin juga tertarik untuk membeli **`chili`** sebagai pelengkap."]].
Proof. repeat split; vm_compute; reflexivity. Qed.

(** ** Rules with a key that names no ingredient *)

Lemma antecedent_of_nonempty antecedent_str : antecedent_of antecedent_str ≠ ∅.
Proof.
  unfold antecedent_of, PyStr.split_comma.
  destruct (PyStrFacts.split_by_cons PyStr.is_comma antecedent_str)
    as (w & ws & ->).
  intros H. assert (w ∈ (∅ : gset string)) as Hw; [| by apply not_elem_of_empty in Hw].
  rewrite <- H. apply elem_of_list_to_set, list_elem_of_here.
Qed.

Lemma antecedent_of_kosong (cocok : gset string) :
  antecedent_of "" ⊆ cocok <-> "" ∈ cocok.
Proof.
  unfold antecedent_of. simpl. rewrite (right_id_L ∅ (∪)).
  apply singleton_subseteq_l.
Qed.

Section TanpaSaran.
Variable iter_set : list string -> list string.

Lemma sisip_map {A : Type} (key : A -> Q) (f : A -> A) x l :
  (∀ a, key (f a) = key a) ->
  sisip key (f x) (map f l) = map f (sisip key x l).
Proof.
  intros Hkey. induction l as [| y l IH]; simpl; [done |].
  rewrite !Hkey. destruct (Qle_bool (key y) (key x)); [done |]. by rewrite IH.
Qed.

Lemma sorted_reverse_map {A : Type} (key : A -> Q) (f : A -> A) l :
  (∀ a, key (f a) = key a) ->
  sorted_reverse key (map f l) = map f (sorted_reverse key l).
Proof.
  intros Hkey. induction l as [| x l IH]; simpl; [done |].
  by rewrite IH, sisip_map.
Qed.

Lemma slice_to_map {A B : Type} (f : A -> B) l n :
  slice_to (map f l) n = map f (slice_to l n).
Proof.
  unfold slice_to. rewrite length_map.
  destruct (0 <=? n)%Z; apply firstn_map.
Qed.

Lemma map_omap {A B C : Type} (f : B -> C) (g : A -> option B) l :
  map f (omap g l) = omap (fun x => f <$> g x) l.
Proof.
  induction l as [| x l IH]; [done |].
  change (omap g (x :: l))
    with (match g x with Some y => y :: omap g l | None => omap g l end).
  change (omap (fun x => f <$> g x) (x :: l))
    with (match f <$> g x with
          | Some y => y :: omap (fun x => f <$> g x) l
          | None => omap (fun x => f <$> g x) l
          end).
  destruct (g x); simpl; by rewrite IH.
Qed.

Lemma rekomendasi_baris_tanpa_saran U aturan aturan' row :
  tanpa_saran <$> rekomendasi_baris iter_set U aturan row
  = tanpa_saran <$> rekomendasi_baris iter_set U aturan' row.
Proof. unfold rekomendasi_baris. by destruct (Qlt_le_dec _ _). Qed.

(** The rule table has a part in the suggestions only. *)
Lemma rekomendasi_resep_tanpa_saran bahan_saya df_resep aturan aturan' top_n :
  map tanpa_saran (rekomendasi_resep iter_set bahan_saya df_resep aturan top_n)
  = map tanpa_saran (rekomendasi_resep iter_set bahan_saya df_resep aturan' top_n).
Proof.
  rewrite !rekomendasi_resep_unfold, <- !slice_to_map.
  rewrite <- !(sorted_reverse_map skor_cocok_persen tanpa_saran) by done.
  rewrite !map_omap. do 2 f_equal.
  apply omap_sama. intros row _. apply rekomendasi_baris_tanpa_saran.
Qed.

End TanpaSaran.

(** No entry of a cleaned text is blank, so the user's set made from it does
    not hold the empty string. *)
Lemma bahan_pengguna_tanpa_kosong raw :
  "" ∉ bahan_saya_set (bahan_pengguna raw).
Proof.
  unfold bahan_saya_set. rewrite elem_of_list_to_set.
  intros (a & Ha & Hin)%list_elem_of_In%in_map_iff.
  pose proof (bahan_pengguna_normal raw) as Hall.
  apply list_elem_of_In in Hin.
  eapply Forall_forall in Hall as (Hne & Hs & Hl); [| exact Hin].
  rewrite Hs, Hl in Ha. by apply Hne.
Qed.

(** C8. A rule whose key is the empty string, or more generally has an
    empty piece between its commas, names no ingredient. For every text that
    the page passes to the engine, such a rule gives no suggestion and
    changes nothing: every recipe is scored and returned as it is without
    the rule. The same holds for every list given to the engine when no
    recipe of the catalog has the empty string as an ingredient. Whatever
    the rule table holds, the same recipes are returned, in the same order,
    with the same percentage and missing ingredients. In the code the empty
    key is read as the antecedent that holds the empty string, and no key
    gives an empty antecedent. *)
Theorem C8_kunci_kosong (iter_set : list string -> list string)
    (df_resep : list Baris) (top_n : Z) :
  (∀ raw awal sisa consequent,
     rekomendasi_resep iter_set (bahan_pengguna raw) df_resep
       (awal ++ ("", consequent) :: sisa)%list top_n
     = rekomendasi_resep iter_set (bahan_pengguna raw) df_resep
         (awal ++ sisa)%list top_n)
  ∧ (∀ raw awal sisa antecedent_str consequent,
       "" ∈ antecedent_of antecedent_str ->
       rekomendasi_resep iter_set (bahan_pengguna raw) df_resep
         (awal ++ (antecedent_str, consequent) :: sisa)%list top_n
       = rekomendasi_resep iter_set (bahan_pengguna raw) df_resep
           (awal ++ sisa)%list top_n)
  ∧ (∀ bahan_saya awal sisa antecedent_str consequent,
       "" ∈ antecedent_of antecedent_str ->
       (∀ row, row ∈ df_resep ->
          "" ∉ bahan_saya_set bahan_saya ∩ list_to_set (bahan_bahan row)) ->
       rekomendasi_resep iter_set bahan_saya df_resep
         (awal ++ (antecedent_str, consequent) :: sisa)%list top_n
       = rekomendasi_resep iter_set bahan_saya df_resep
           (awal ++ sisa)%list top_n)
  ∧ (∀ bahan_saya aturan aturan',
       map tanpa_saran
         (rekomendasi_resep iter_set bahan_saya df_resep aturan top_n)
       = map tanpa_saran
           (rekomendasi_resep iter_set bahan_saya df_resep aturan' top_n))
  ∧ (∀ cocok : gset string, antecedent_of "" ⊆ cocok <-> "" ∈ cocok)
  ∧ (∀ antecedent_str, antecedent_of antecedent_str ≠ ∅).
Proof.
  assert (∀ bahan_saya awal sisa antecedent_str consequent,
            "" ∈ antecedent_of antecedent_str ->
            (∀ row, row ∈ df_resep ->
               "" ∉ bahan_saya_set bahan_saya ∩ list_to_set (bahan_bahan row)) ->
            rekomendasi_resep iter_set bahan_saya df_resep
              (awal ++ (antecedent_str, consequent) :: sisa)%list top_n
            = rekomendasi_resep iter_set bahan_saya df_resep
                (awal ++ sisa)%list top_n) as Hlewati.
  { intros bahan_saya awal sisa antecedent_str consequent Hkosong H.
    apply rekomendasi_resep_lewati. intros row Hrow Hsub.
    apply (H row Hrow), Hsub, Hkosong. }
  assert (∀ raw awal sisa antecedent_str consequent,
            "" ∈ antecedent_of antecedent_str ->
            rekomendasi_resep iter_set (bahan_pengguna raw) df_resep
              (awal ++ (antecedent_str, consequent) :: sisa)%list top_n
            = rekomendasi_resep iter_set (bahan_pengguna raw) df_resep
                (awal ++ sisa)%list top_n) as Hhalaman.
  { intros raw awal sisa antecedent_str consequent Hkosong.
    apply Hlewati; [exact Hkosong |]. intros row _ Hin.
    apply (bahan_pengguna_tanpa_kosong raw).
    by apply elem_of_intersection in Hin as [Hin _]. }
  split.
  { intros raw awal sisa consequent. apply Hhalaman.
    by apply (antecedent_of_kosong (antecedent_of "")). }
  split; [exact Hhalaman |]. split; [exact Hlewati |].
  split; [intros; apply rekomendasi_resep_tanpa_saran |].
  split; [apply antecedent_of_kosong | apply antecedent_of_nonempty].
Qed.

(** The page never does so, but when a recipe lists the empty string as an
    ingredient and the list given to the engine has a blank entry, the rule
    with the empty key gives a suggestion. *)
Example kunci_kosong_terpicu :
  map saran_cerdas
    (rekomendasi_resep urutan_contoh [" "; "garlic"] [resep_kosong]
       [("", "pepper")] 5)
  = [["`` banyak digunakan dengan **`pepper`**, Anda mungkin juga tertarik untuk membeli **`pepper`** sebagai pelengkap."]]
  ∧ map saran_cerdas
      (rekomendasi_resep urutan_contoh [" "; "garlic"] [resep_kosong] [] 5)
    = [[]].
Proof. split; vm_compute; reflexivity. Qed.

Example kunci_kosong_dilewati :
  rekomendasi_resep urutan_contoh ["garlic"] [resep_a; resep_kosong]
    [("", "pepper"); ("garlic", "ginger")] 5
  = rekomendasi_resep urutan_contoh ["garlic"] [resep_a; resep_kosong]
      [("garlic", "ginger")] 5.
Proof. vm_compute. reflexivity. Qed.

(** * Further properties of the engine *)

(** ** When nothing is returned, and what is kept *)

Lemma omap_nil_iff {A B : Type} (f : A -> option B) (l : list A) :
  omap f l = [] <-> ∀ x, x ∈ l -> f x = None.
Proof.
  split.
  - intros H x Hx. destruct (f x) as [y |] eqn:E; [| done].
    assert (y ∈ omap f l) as Hy by (apply list_elem_of_omap; eauto).
    rewrite H in Hy. by apply elem_of_nil in Hy.
  - intros H. destruct (omap f l) as [| y k] eqn:E; [done |].
    assert (y ∈ omap f l) as Hy by (rewrite E; apply list_elem_of_here).
    apply list_elem_of_omap in Hy as (x & Hx & Hfx).
    rewrite (H x Hx) in Hfx. discriminate.
Qed.

Lemma sorted_reverse_nil_iff {A : Type} (key : A -> Q) (l : list A) :
  sorted_reverse key l = [] <-> l = [].
Proof. rewrite <- !Permutation_nil_r. by rewrite sorted_reverse_perm. Qed.

Lemma slice_to_nil_iff {A : Type} (l : list A) (n : Z) :
  (0 < n)%Z -> slice_to l n = [] <-> l = [].
Proof.
  intros Hn. unfold slice_to. destruct (0 <=? n)%Z eqn:E; [| lia].
  split; [| by intros ->; rewrite take_nil].
  intros [H | H]%take_nil_inv; [lia | done].
Qed.

Lemma kandidat_kosong_iff iter_set (U : gset string) aturan_asosiasi df_resep :
  omap (rekomendasi_baris iter_set U aturan_asosiasi) df_resep = []
  <-> ∀ row, row ∈ df_resep -> U ∩ list_to_set (bahan_bahan row) = ∅.
Proof.
  rewrite omap_nil_iff. split; intros H row Hrow.
  - exact (proj1 (rekomendasi_baris_None _ _ _ _) (H row Hrow)).
  - exact (proj2 (rekomendasi_baris_None _ _ _ _) (H row Hrow)).
Qed.

(** X1. When [top_n] is positive, nothing is returned exactly when no recipe
    of the catalog has an ingredient in the user's set. *)
Theorem X1_hasil_kosong (iter_set : list string -> list string)
    (bahan_saya : list string) (df_resep : list Baris)
    (aturan_asosiasi : list (string * string)) (top_n : Z) :
  (0 < top_n)%Z ->
  rekomendasi_resep iter_set bahan_saya df_resep aturan_asosiasi top_n = []
  <-> ∀ row, row ∈ df_resep ->
        bahan_saya_set bahan_saya ∩ list_to_set (bahan_bahan row) = ∅.
Proof.
  intros Hn. rewrite rekomendasi_resep_unfold, slice_to_nil_iff by done.
  rewrite sorted_reverse_nil_iff. apply kandidat_kosong_iff.
Qed.

Lemma X1_witness :
  (0 < 5)%Z
  ∧ (rekomendasi_resep urutan_contoh ["rice"] [resep_a; resep_b] aturan_contoh 5 = []
     <-> ∀ row, row ∈ [resep_a; resep_b] ->
           bahan_saya_set ["rice"] ∩ list_to_set (bahan_bahan row) = ∅).
Proof.
  split; [lia |].
  apply (X1_hasil_kosong urutan_contoh ["rice"] [resep_a; resep_b] aturan_contoh 5).
  lia.
Defined.

Lemma omap_length_filter iter_set U aturan df :
  length (omap (rekomendasi_baris iter_set U aturan) df)
  = length (filter (fun row => U ∩ list_to_set (bahan_bahan row) ≠ ∅) df).
Proof.
  induction df as [| row df IH]; [done |].
  rewrite filter_cons.
  change (omap (rekomendasi_baris iter_set U aturan) (row :: df))
    with (match rekomendasi_baris iter_set U aturan row with
          | Some r => r :: omap (rekomendasi_baris iter_set U aturan) df
          | None => omap (rekomendasi_baris iter_set U aturan) df
          end).
  destruct (rekomendasi_baris iter_set U aturan row) as [r |] eqn:E.
  - rewrite decide_True; [simpl; by rewrite IH |].
    intros H.
    pose proof (proj2 (rekomendasi_baris_None iter_set U aturan row) H).
    congruence.
  - apply (proj1 (rekomendasi_baris_None _ _ _ _)) in E.
    rewrite decide_False; [exact IH | by intros H].
Qed.

(** X2. When [top_n] is not negative, the number of recommendations returned
    is [top_n] or, if there are fewer, the number of recipes of the catalog
    that have an ingredient in the user's set; the recommendations left out
    have a percentage that is not greater than that of any one returned. *)
Theorem X2_top_n_terbaik (iter_set : list string -> list string)
    (bahan_saya : list string) (df_resep : list Baris)
    (aturan_asosiasi : list (string * string)) (top_n : Z) :
  (0 <= top_n)%Z ->
  let U := bahan_saya_set bahan_saya in
  let hasil := omap (rekomendasi_baris iter_set U aturan_asosiasi) df_resep in
  let keluaran :=
    rekomendasi_resep iter_set bahan_saya df_resep aturan_asosiasi top_n in
  length keluaran
  = Nat.min (Z.to_nat top_n)
      (length (filter (fun row => U ∩ list_to_set (bahan_bahan row) ≠ ∅)
                 df_resep))
  ∧ ∃ sisa, hasil ≡ₚ (keluaran ++ sisa)%list
      ∧ ∀ r r', r ∈ keluaran -> r' ∈ sisa ->
          (skor_cocok_persen r' <= skor_cocok_persen r)%Q.
Proof.
  intros Hn U hasil keluaran. subst keluaran.
  rewrite rekomendasi_resep_unfold. fold U hasil.
  split.
  - rewrite slice_to_length. destruct (0 <=? top_n)%Z eqn:E; [| lia].
    rewrite sorted_reverse_perm. unfold hasil. by rewrite omap_length_filter.
  - destruct (slice_to_prefix (sorted_reverse skor_cocok_persen hasil) top_n)
      as [sisa Hsisa].
    exists sisa. split; [by rewrite <- Hsisa, sorted_reverse_perm |].
    intros r r' Hr Hr'.
    pose proof (sorted_reverse_sorted skor_cocok_persen hasil) as Hs.
    rewrite Hsisa in Hs.
    exact (StronglySorted_app_1_elem_of _ _ _ _ _ Hs Hr Hr').
Qed.

Lemma X2_witness :
  (0 <= 1)%Z
  ∧ let U := bahan_saya_set ["garlic"] in
    let hasil := omap (rekomendasi_baris urutan_contoh U aturan_contoh) [resep_a; resep_b] in
    let keluaran :=
      rekomendasi_resep urutan_contoh ["garlic"] [resep_a; resep_b] aturan_contoh 1 in
    length keluaran
    = Nat.min (Z.to_nat 1)
        (length (filter (fun row => U ∩ list_to_set (bahan_bahan row) ≠ ∅)
                   [resep_a; resep_b]))
    ∧ ∃ sisa, hasil ≡ₚ (keluaran ++ sisa)%list
        ∧ ∀ r r', r ∈ keluaran -> r' ∈ sisa ->
            (skor_cocok_persen r' <= skor_cocok_persen r)%Q.
Proof.
  split; [lia |].
  apply (X2_top_n_terbaik urutan_contoh ["garlic"] [resep_a; resep_b] aturan_contoh 1).
  lia.
Defined.

(** ** Recipes of which nothing is missing *)

Lemma kurang_kosong_iff (U R : gset string) :
  PyStr.sorted (elements (R ∖ U)) = [] <-> R ⊆ U.
Proof.
  rewrite <- Permutation_nil_r, sorted_perm, Permutation_nil_r.
  rewrite elements_empty_iff. split.
  - intros H%leibniz_equiv. by apply empty_difference_subseteq_L.
  - intros H. by rewrite subseteq_empty_difference_L.
Qed.

Lemma irisan_penuh (U R : gset string) : R ⊆ U -> U ∩ R = R.
Proof. intros H. rewrite (comm_L (∩)). by apply subseteq_intersection_1_L. Qed.

Lemma persen_penuh (U R : gset string) :
  R ⊆ U -> (0 < size R)%nat ->
  round2 (fmul (skor_cocok (U ∩ R) R) 100) = 100%Q.
Proof.
  intros Hsub HR. rewrite (irisan_penuh U R Hsub), skor_cocok_penuh by done.
  apply persen_1.
Qed.

(** X3. A recommendation returned has no missing ingredient exactly when the
    user's set holds every ingredient of its recipe, and its percentage is
    then 100. *)
Theorem X3_bahan_lengkap (iter_set : list string -> list string)
    (bahan_saya : list string) (df_resep : list Baris)
    (aturan_asosiasi : list (string * string)) (top_n : Z) (r : Rekomendasi) :
  r ∈ rekomendasi_resep iter_set bahan_saya df_resep aturan_asosiasi top_n ->
  ∃ row, row ∈ df_resep
    ∧ rekomendasi_baris iter_set (bahan_saya_set bahan_saya) aturan_asosiasi row
      = Some r
    ∧ let R : gset string := list_to_set (bahan_bahan row) in
      let U := bahan_saya_set bahan_saya in
      (bahan_kurang r = [] <-> R ⊆ U)
      ∧ (R ⊆ U -> skor_cocok_persen r = 100%Q).
Proof.
  intros (row & Hrow & Hr)%rekomendasi_resep_elem.
  exists row. split; [exact Hrow |]. split; [exact Hr |].
  intros R U. apply rekomendasi_baris_Some in Hr as [Hpos ->].
  fold R U in Hpos |- *. cbn [bahan_kurang skor_cocok_persen]. split.
  - apply kurang_kosong_iff.
  - intros Hsub. apply skor_cocok_pos in Hpos as [_ HR].
    by apply persen_penuh.
Qed.

Lemma X3_witness :
  rekomendasi_saran
  ∈ rekomendasi_resep urutan_contoh ["Garlic"; " onion"] [resep_a; resep_b]
      aturan_contoh 1
  ∧ ∃ row, row ∈ [resep_a; resep_b]
    ∧ rekomendasi_baris urutan_contoh (bahan_saya_set ["Garlic"; " onion"])
        aturan_contoh row
      = Some rekomendasi_saran
    ∧ let R : gset string := list_to_set (bahan_bahan row) in
      let U := bahan_saya_set ["Garlic"; " onion"] in
      (bahan_kurang rekomendasi_saran = [] <-> R ⊆ U)
      ∧ (R ⊆ U -> skor_cocok_persen rekomendasi_saran = 100%Q).
Proof.
  assert (rekomendasi_saran
          ∈ rekomendasi_resep urutan_contoh ["Garlic"; " onion"] [resep_a; resep_b]
              aturan_contoh 1) as H.
  { vm_compute. apply list_elem_of_here. }
  split; [exact H |].
  exact (X3_bahan_lengkap urutan_contoh ["Garlic"; " onion"] [resep_a; resep_b]
           aturan_contoh 1 rekomendasi_saran H).
Defined.

Lemma bahan_saya_set_app l1 l2 :
  bahan_saya_set (l1 ++ l2) = bahan_saya_set l1 ∪ bahan_saya_set l2.
Proof.
  unfold bahan_saya_set. rewrite map_app. apply list_to_set_app_L.
Qed.

(** X4. Adding entries to the user's list never lowers the score or the
    percentage of a recipe, never adds a missing ingredient, and never makes
    a recipe that was recommended be left out of the candidates. *)
Theorem X4_bahan_tambahan (iter_set : list string -> list string)
    (bahan_saya tambahan : list string)
    (aturan_asosiasi : list (string * string)) (row : Baris) :
  let U := bahan_saya_set bahan_saya in
  let U' := bahan_saya_set (bahan_saya ++ tambahan) in
  let R : gset string := list_to_set (bahan_bahan row) in
  (skor_cocok (U ∩ R) R <= skor_cocok (U' ∩ R) R)%Q
  ∧ (round2 (fmul (skor_cocok (U ∩ R) R) 100)
     <= round2 (fmul (skor_cocok (U' ∩ R) R) 100))%Q
  ∧ R ∖ U' ⊆ R ∖ U
  ∧ (is_Some (rekomendasi_baris iter_set U aturan_asosiasi row) ->
     is_Some (rekomendasi_baris iter_set U' aturan_asosiasi row)).
Proof.
  intros U U' R.
  assert (U ⊆ U') as HU.
  { unfold U'. rewrite bahan_saya_set_app. apply union_subseteq_l. }
  assert (skor_cocok (U ∩ R) R <= skor_cocok (U' ∩ R) R)%Q as Hskor.
  { by apply skor_cocok_mono, intersection_mono_r. }
  split; [exact Hskor |]. split; [| split].
  - by apply persen_mono.
  - intros x [Hx Hn]%elem_of_difference. apply elem_of_difference.
    split; [exact Hx |]. intros Hin. by apply Hn, HU.
  - intros [r Hr]. apply rekomendasi_baris_Some in Hr as [Hpos _]. fold R in Hpos.
    destruct (rekomendasi_baris iter_set U' aturan_asosiasi row) eqn:E; [done |].
    exfalso. unfold rekomendasi_baris in E. fold R in E.
    destruct (Qlt_le_dec 0 (skor_cocok (U' ∩ R) R)); [discriminate | lra].
Qed.

Lemma rekomendasi_resep_sorted iter_set bahan_saya df_resep aturan_asosiasi top_n :
  StronglySorted (turun skor_cocok_persen)
    (rekomendasi_resep iter_set bahan_saya df_resep aturan_asosiasi top_n).
Proof.
  rewrite rekomendasi_resep_unfold.
  eapply sorted_prefix; [apply slice_to_prefix | apply sorted_reverse_sorted].
Qed.

(** X5. In the list returned, a recommendation comes before another one only
    if the score of its recipe is not smaller, or if both have the same
    percentage; and the same holds with the fraction of the recipe's
    ingredients that the user has in the place of the score: neither the
    rounding of the quotient nor that of the percentage puts a recipe with a
    smaller fraction first, unless both get the same percentage. *)
Theorem X5_peringkat (iter_set : list string -> list string)
    (bahan_saya : list string) (df_resep : list Baris)
    (aturan_asosiasi : list (string * string)) (top_n : Z)
    (l1 l2 l3 : list Rekomendasi) (r r' : Rekomendasi) (row row' : Baris) :
  let U := bahan_saya_set bahan_saya in
  let skor (b : Baris) :=
    skor_cocok (U ∩ list_to_set (bahan_bahan b)) (list_to_set (bahan_bahan b)) in
  let bagian (b : Baris) :=
    (inject_Z (Z.of_nat (size (U ∩ list_to_set (bahan_bahan b))))
     / inject_Z (Z.of_nat (size (list_to_set (bahan_bahan b) : gset string))))%Q in
  rekomendasi_resep iter_set bahan_saya df_resep aturan_asosiasi top_n
  = (l1 ++ r :: l2 ++ r' :: l3)%list ->
  rekomendasi_baris iter_set U aturan_asosiasi row = Some r ->
  rekomendasi_baris iter_set U aturan_asosiasi row' = Some r' ->
  ((skor row' <= skor row)%Q
   ∨ (skor_cocok_persen r == skor_cocok_persen r')%Q)
  ∧ ((bagian row' <= bagian row)%Q
     ∨ (skor_cocok_persen r == skor_cocok_persen r')%Q).
Proof.
  intros U skor bagian Hout Hr Hr'.
  pose proof (rekomendasi_resep_sorted iter_set bahan_saya df_resep aturan_asosiasi
                top_n) as Hs.
  rewrite Hout in Hs.
  apply StronglySorted_app_1_r, StronglySorted_inv in Hs as [_ Hall].
  assert (skor_cocok_persen r' <= skor_cocok_persen r)%Q as H1.
  { eapply Forall_forall in Hall; [exact Hall |].
    apply elem_of_app. right. apply list_elem_of_here. }
  apply rekomendasi_baris_Some in Hr as [Hpos ->].
  apply rekomendasi_baris_Some in Hr' as [Hpos' ->].
  cbn [skor_cocok_persen] in *. fold U in H1, Hpos, Hpos' |- *.
  assert ((skor row <= skor row')%Q ->
          (round2 (fmul (skor row) 100) == round2 (fmul (skor row') 100))%Q)
    as Hsama.
  { intros Hle. apply Qle_antisym; [| exact H1]. by apply persen_mono. }
  split.
  - destruct (Qlt_le_dec (skor row) (skor row')) as [Hlt | Hle]; [right | by left].
    apply Hsama. lra.
  - destruct (Qlt_le_dec (bagian row) (bagian row')) as [Hlt | Hle];
      [right | by left].
    apply Hsama. unfold skor, skor_cocok.
    apply skor_cocok_pos in Hpos as [_ HR].
    apply skor_cocok_pos in Hpos' as [_ HR'].
    rewrite !decide_True by done. apply fl_mono. unfold bagian in Hlt. lra.
Qed.

Lemma X5_witness :
  rekomendasi_resep urutan_contoh ["garlic"] [resep_a; resep_b] [] 5
  = ([] ++ rekomendasi_b :: [] ++ rekomendasi_a :: [])%list
  ∧ rekomendasi_baris urutan_contoh (bahan_saya_set ["garlic"]) [] resep_b
    = Some rekomendasi_b
  ∧ rekomendasi_baris urutan_contoh (bahan_saya_set ["garlic"]) [] resep_a
    = Some rekomendasi_a
  ∧ (let U := bahan_saya_set ["garlic"] in
     let skor (b : Baris) :=
       skor_cocok (U ∩ list_to_set (bahan_bahan b))
         (list_to_set (bahan_bahan b)) in
     let bagian (b : Baris) :=
       (inject_Z (Z.of_nat (size (U ∩ list_to_set (bahan_bahan b))))
        / inject_Z
            (Z.of_nat (size (list_to_set (bahan_bahan b) : gset string))))%Q in
     ((skor resep_a <= skor resep_b)%Q
      ∨ (skor_cocok_persen rekomendasi_b == skor_cocok_persen rekomendasi_a)%Q)
     ∧ ((bagian resep_a <= bagian resep_b)%Q
        ∨ (skor_cocok_persen rekomendasi_b
           == skor_cocok_persen rekomendasi_a)%Q)).
Proof.
  assert (rekomendasi_resep urutan_contoh ["garlic"] [resep_a; resep_b] [] 5
          = ([] ++ rekomendasi_b :: [] ++ rekomendasi_a :: [])%list) as H1
    by (vm_compute; reflexivity).
  assert (rekomendasi_baris urutan_contoh (bahan_saya_set ["garlic"]) [] resep_b
          = Some rekomendasi_b) as H2 by (vm_compute; reflexivity).
  assert (rekomendasi_baris urutan_contoh (bahan_saya_set ["garlic"]) [] resep_a
          = Some rekomendasi_a) as H3 by (vm_compute; reflexivity).
  split; [exact H1 |]. split; [exact H2 |]. split; [exact H3 |].
  exact (X5_peringkat urutan_contoh ["garlic"] [resep_a; resep_b] [] 5
           [] [] [] rekomendasi_b rekomendasi_a resep_b resep_a H1 H2 H3).
Defined.

(** ** The text of the user and the search button *)

Section Tombol.
Import PyStr PyStrFacts.

Lemma pemisah_lower_char c :
  is_comma_or_newline (lower_char c) = is_comma_or_newline c.
Proof. semua_karakter c. Qed.

Lemma tanpa_pemisah_lower s :
  tanpa_pemisah is_comma_or_newline (lower s)
  = tanpa_pemisah is_comma_or_newline s.
Proof.
  induction s as [| c s IH]; simpl; [done |].
  by rewrite pemisah_lower_char, IH.
Qed.

Lemma tanpa_pemisah_lstrip sep s :
  tanpa_pemisah sep s = true -> tanpa_pemisah sep (lstrip s) = true.
Proof.
  induction s as [| c s IH]; simpl; [done |].
  intros H. destruct (isspace c); [| exact H].
  apply andb_prop in H as [_ H]. by apply IH.
Qed.

Lemma tanpa_pemisah_rstrip sep s :
  tanpa_pemisah sep s = true -> tanpa_pemisah sep (rstrip s) = true.
Proof.
  induction s as [| c s IH]; simpl; [done |].
  intros [Hc Hs]%andb_prop. specialize (IH Hs).
  destruct (rstrip s) as [| c' r].
  - destruct (isspace c); simpl; [done | by rewrite Hc].
  - change (tanpa_pemisah sep (String c (String c' r)))
      with (negb (sep c) && tanpa_pemisah sep (String c' r)).
    by rewrite Hc, IH.
Qed.

Lemma split_by_satu sep s : tanpa_pemisah sep s = true -> split_by sep s = [s].
Proof.
  induction s as [| c s IH]; simpl; [done |].
  intros [Hc Hs]%andb_prop. apply negb_true_iff in Hc.
  by rewrite Hc, (IH Hs).
Qed.

Lemma bahan_pengguna_tanpa_pemisah raw :
  Forall (fun x => tanpa_pemisah is_comma_or_newline x = true)
    (bahan_pengguna raw).
Proof.
  unfold bahan_pengguna. apply Forall_forall. intros x Hx.
  apply list_elem_of_In, in_map_iff in Hx as (w & <- & Hw).
  apply list_elem_of_In, list_elem_of_filter in Hw as [_ Hw].
  pose proof (split_by_tanpa_pemisah is_comma_or_newline raw) as Hall.
  rewrite Forall_forall in Hall. specialize (Hall w Hw). simpl in Hall.
  rewrite tanpa_pemisah_lower. unfold strip.
  by apply tanpa_pemisah_rstrip, tanpa_pemisah_lstrip.
Qed.

Lemma bahan_pengguna_satu x :
  x ≠ "" -> strip x = x -> lower x = x ->
  tanpa_pemisah is_comma_or_newline x = true ->
  bahan_pengguna x = [x].
Proof.
  intros Hne Hs Hl Ht. unfold bahan_pengguna, re_split_comma_newline.
  rewrite (split_by_satu _ _ Ht).
  rewrite filter_cons_True by (by rewrite Hs).
  rewrite filter_nil. simpl. by rewrite Hs, Hl.
Qed.

Lemma bahan_pengguna_spasi c t :
  isspace c = true -> is_comma_or_newline c = false ->
  bahan_pengguna (String c t) = bahan_pengguna t.
Proof.
  intros Hc Hsep. unfold bahan_pengguna, re_split_comma_newline. simpl.
  rewrite Hsep.
  destruct (split_by_cons is_comma_or_newline t) as (w & ws & E). rewrite E.
  assert (strip (String c w) = strip w) as Hs.
  { unfold strip. simpl. by rewrite Hc. }
  destruct (decide (strip w = "")) as [Hw | Hw].
  - rewrite !filter_cons_False; [done | | ]; intros H; apply H; congruence.
  - rewrite !filter_cons_True; [| done | congruence].
    simpl. by rewrite Hs.
Qed.

Lemma bahan_pengguna_join l :
  Forall (fun x => x ≠ "" ∧ strip x = x ∧ lower x = x) l ->
  Forall (fun x => tanpa_pemisah is_comma_or_newline x = true) l ->
  bahan_pengguna (join ", " l) = l ∧ bahan_pengguna (join "," l) = l.
Proof.
  induction l as [| w ws IH]; [by split |].
  intros Hn Ht. inversion Hn as [| ? ? (Hne & Hs & Hl) Hn']; subst.
  inversion Ht as [| ? ? Hw Ht']; subst.
  destruct (IH Hn' Ht') as [IH1 IH2].
  pose proof (bahan_pengguna_satu w Hne Hs Hl Hw) as Hsatu.
  destruct ws as [| w' ws]; [by split |].
  split.
  - change (join ", " (w :: w' :: ws))
      with (w ++ String "," (String " " (join ", " (w' :: ws)))).
    rewrite bahan_pengguna_app by reflexivity.
    rewrite bahan_pengguna_spasi by reflexivity.
    by rewrite Hsatu, IH1.
  - change (join "," (w :: w' :: ws))
      with (w ++ String "," (join "," (w' :: ws))).
    rewrite bahan_pengguna_app by reflexivity.
    by rewrite Hsatu, IH2.
Qed.

(** X6. The cleaned list, written back as a text with its entries joined by
    a comma, with or without a space after it, is cleaned to itself: the
    entries hold no separator, and cleaning changes nothing in them. *)
Theorem X6_normalizer_bolak_balik (raw : string) :
  bahan_pengguna (join ", " (bahan_pengguna raw)) = bahan_pengguna raw
  ∧ bahan_pengguna (join "," (bahan_pengguna raw)) = bahan_pengguna raw
  ∧ Forall (fun x => tanpa_pemisah is_comma_or_newline x = true)
      (bahan_pengguna raw).
Proof.
  pose proof (bahan_pengguna_join (bahan_pengguna raw)
                (bahan_pengguna_normal raw)
                (bahan_pengguna_tanpa_pemisah raw)) as [H1 H2].
  split; [exact H1 |]. split; [exact H2 |].
  apply bahan_pengguna_tanpa_pemisah.
Qed.

Lemma strip_kosong_iff s : strip s = "" <-> semua_spasi s = true.
Proof.
  split; [| apply strip_semua_spasi].
  unfold strip. induction s as [| c s IH]; [done |].
  simpl. destruct (isspace c) eqn:Hc; [exact IH |].
  simpl. destruct (rstrip s); [by rewrite Hc | done].
Qed.

Lemma semua_spasi_app a c b :
  isspace c = false -> semua_spasi (a ++ String c b) = false.
Proof.
  intros Hc. induction a as [| d a IH]; simpl; [by rewrite Hc |].
  rewrite IH. apply andb_false_r.
Qed.

Lemma lima_teratas_kosong iter_set bahan_saya df_resep aturan_asosiasi :
  rekomendasi_resep iter_set bahan_saya df_resep aturan_asosiasi 5 = []
  <-> ∀ row, row ∈ df_resep ->
        bahan_saya_set bahan_saya ∩ list_to_set (bahan_bahan row) = ∅.
Proof.
  rewrite rekomendasi_resep_unfold, slice_to_nil_iff by done.
  rewrite sorted_reverse_nil_iff. apply kandidat_kosong_iff.
Qed.

Lemma rekomendasi_resep_length iter_set bahan_saya df_resep aturan_asosiasi top_n :
  (0 <= top_n)%Z ->
  (length (rekomendasi_resep iter_set bahan_saya df_resep aturan_asosiasi top_n)
   <= Z.to_nat top_n)%nat.
Proof.
  intros Hn. rewrite rekomendasi_resep_unfold, slice_to_length.
  destruct (0 <=? top_n)%Z eqn:E; lia.
Qed.

(** X7. With both tables loaded, the button gives the warning exactly when
    the text is white space only; it gives the message that no recipe was
    found exactly when the text is not white space only and no recipe of the
    catalog has an ingredient in the cleaned text; and a list that is shown
    is what the engine returned, with one to five recipes. *)
Theorem X7_tombol_cari (iter_set : list string -> list string)
    (df_resep : list Baris) (aturan_asosiasi : list (string * string))
    (input_bahan_str : string) :
  let tampilan :=
    tombol_cari iter_set (Some df_resep) (Some aturan_asosiasi) input_bahan_str in
  let U := bahan_saya_set (bahan_pengguna input_bahan_str) in
  (tampilan = PeringatanKosong <-> semua_spasi input_bahan_str = true)
  ∧ (tampilan = TidakAdaResep
     <-> semua_spasi input_bahan_str = false
         ∧ ∀ row, row ∈ df_resep -> U ∩ list_to_set (bahan_bahan row) = ∅)
  ∧ (∀ l, tampilan = DaftarResep l ->
       l = rekomendasi_resep iter_set (bahan_pengguna input_bahan_str)
             df_resep aturan_asosiasi 5
       ∧ (1 <= length l <= 5)%nat)
  ∧ tampilan ≠ TanpaMasukan.
Proof.
  intros tampilan U. subst tampilan. unfold tombol_cari.
  pose proof (lima_teratas_kosong iter_set (bahan_pengguna input_bahan_str)
                df_resep aturan_asosiasi) as Hnil.
  pose proof (rekomendasi_resep_length iter_set (bahan_pengguna input_bahan_str)
                df_resep aturan_asosiasi 5) as Hlen.
  fold U in Hnil.
  destruct (decide (strip input_bahan_str = "")) as [Hs | Hs].
  - pose proof (proj1 (strip_kosong_iff _) Hs) as Hsp.
    split; [done |]. split; [| done].
    split; [done |]. intros [Hf _]. congruence.
  - assert (semua_spasi input_bahan_str = false) as Hsp.
    { destruct (semua_spasi input_bahan_str) eqn:E; [| done].
      by apply strip_kosong_iff in E. }
    destruct (rekomendasi_resep iter_set (bahan_pengguna input_bahan_str)
                df_resep aturan_asosiasi 5) as [| r l] eqn:E.
    + split; [split; [done | congruence] |].
      split; [| done]. split; [intros _ | done].
      split; [exact Hsp | by apply Hnil].
    + split; [split; [done | congruence] |].
      split; [| split; [| done]].
      * split; [done |]. intros [_ H]. apply Hnil in H. discriminate.
      * intros l' [= <-]. split; [done |].
        specialize (Hlen ltac:(lia)). simpl in *. lia.
Qed.

(** X8. A text made of separators and white space with a comma in it is not
    stopped by the warning: the engine is called with the empty list, and the
    page says that no recipe was found, whatever the catalog holds. *)
Theorem X8_hanya_pemisah (iter_set : list string -> list string)
    (df_resep : list Baris) (aturan_asosiasi : list (string * string))
    (input_bahan_str : string) :
  hanya_pemisah input_bahan_str = true ->
  semua_spasi input_bahan_str = false ->
  bahan_pengguna input_bahan_str = []
  ∧ tombol_cari iter_set (Some df_resep) (Some aturan_asosiasi) input_bahan_str
    = TidakAdaResep.
Proof.
  intros Hp Hsp. pose proof (bahan_pengguna_kosong _ Hp) as Hnil.
  split; [exact Hnil |]. unfold tombol_cari.
  rewrite decide_False
    by (intros H%strip_kosong_iff; congruence).
  rewrite Hnil.
  assert (rekomendasi_resep iter_set [] df_resep aturan_asosiasi 5 = []) as ->;
    [| done].
  apply lima_teratas_kosong. intros row _.
  change (bahan_saya_set []) with (∅ : gset string). apply left_absorb_L, _.
Qed.

Lemma X8_witness :
  hanya_pemisah " , " = true
  ∧ semua_spasi " , " = false
  ∧ bahan_pengguna " , " = []
  ∧ tombol_cari urutan_contoh (Some [resep_a; resep_b]) (Some aturan_contoh) " , "
    = TidakAdaResep.
Proof.
  split; [reflexivity |]. split; [reflexivity |].
  apply (X8_hanya_pemisah urutan_contoh [resep_a; resep_b] aturan_contoh " , ");
    reflexivity.
Defined.

(** X9. The order in which two parts of the text are written, with a comma
    between them, does not change what the button shows. *)
Theorem X9_urutan_masukan (iter_set : list string -> list string)
    (df_resep : option (list Baris))
    (aturan_asosiasi : option (list (string * string))) (a b : string) :
  tombol_cari iter_set df_resep aturan_asosiasi (a ++ "," ++ b)
  = tombol_cari iter_set df_resep aturan_asosiasi (b ++ "," ++ a).
Proof.
  unfold tombol_cari.
  destruct df_resep as [df |]; [| done].
  destruct aturan_asosiasi as [aturan |]; [| done].
  change ("," ++ b) with (String "," b). change ("," ++ a) with (String "," a).
  rewrite !decide_False
    by (intros H%strip_kosong_iff; by rewrite semua_spasi_app in H).
  rewrite !rekomendasi_resep_unfold, !bahan_pengguna_app by reflexivity.
  rewrite !bahan_saya_set_app. by rewrite (comm_L (∪)).
Qed.

End Tombol.

(** ** A percentage of 100 *)

(** X10. For a recipe with fewer than 20000 different ingredients, the
    percentage of its recommendation is 100 exactly when no ingredient is
    missing: rounding does not turn an incomplete match into 100. *)
Theorem X10_seratus_persen (iter_set : list string -> list string)
    (U : gset string) (aturan_asosiasi : list (string * string))
    (row : Baris) (r : Rekomendasi) :
  rekomendasi_baris iter_set U aturan_asosiasi row = Some r ->
  (Z.of_nat (size (list_to_set (bahan_bahan row) : gset string)) < 20000)%Z ->
  (skor_cocok_persen r == 100)%Q <-> bahan_kurang r = [].
Proof.
  intros Hr Hn. apply rekomendasi_baris_Some in Hr as [Hpos ->].
  set (R := list_to_set (bahan_bahan row) : gset string) in *.
  cbn [skor_cocok_persen bahan_kurang]. rewrite kurang_kosong_iff.
  apply skor_cocok_pos in Hpos as [_ HR]. split.
  - intros H. unfold skor_cocok in H. rewrite decide_True in H by exact HR.
    assert (U ∩ R ⊆ R) as Hsub by apply intersection_subseteq_r.
    pose proof (subseteq_size _ _ Hsub) as Hle.
    destruct (decide (size (U ∩ R) = size R)) as [E | E].
    + assert (U ∩ R = R) as E'
        by (apply set_subseteq_size_eq; [exact Hsub | lia]).
      rewrite <- E'. apply intersection_subseteq_l.
    + exfalso.
      assert (round2 (fmul (truediv (Z.of_nat (size (U ∩ R)))
                              (Z.of_nat (size R))) 100) < 100)%Q as Hlt.
      { apply persen_kurang, truediv_mono; lia. }
      rewrite H in Hlt. by apply Qlt_irrefl in Hlt.
  - intros Hsub. rewrite persen_penuh by done. reflexivity.
Qed.

Lemma X10_witness :
  rekomendasi_baris urutan_contoh (bahan_saya_set ["Garlic"; " onion"])
    aturan_contoh resep_b = Some rekomendasi_saran
  ∧ (Z.of_nat (size (list_to_set (bahan_bahan resep_b) : gset string)) < 20000)%Z
  ∧ ((skor_cocok_persen rekomendasi_saran == 100)%Q
     <-> bahan_kurang rekomendasi_saran = []).
Proof.
  assert (rekomendasi_baris urutan_contoh (bahan_saya_set ["Garlic"; " onion"])
            aturan_contoh resep_b = Some rekomendasi_saran) as H1
    by (vm_compute; reflexivity).
  assert (Z.of_nat (size (list_to_set (bahan_bahan resep_b) : gset string))
          < 20000)%Z as H2 by (vm_compute; reflexivity).
  split; [exact H1 |]. split; [exact H2 |].
  exact (X10_seratus_persen urutan_contoh (bahan_saya_set ["Garlic"; " onion"])
           aturan_contoh resep_b rekomendasi_saran H1 H2).
Defined.

(** ** Loading the data and drawing the form *)

(** X11. When a step of the loading raises an exception, neither table is
    returned, one message is shown, and the button draws nothing; the steps
    that follow the one that fails do not change this. Without a message the
    catalog is returned, and the form is drawn unless the rule file holds
    [null]. *)
Theorem X11_muat_data {Mentah : Type} (read_csv : string -> Hasil Mentah)
    (apply_literal_eval : Mentah -> Hasil (list Baris))
    (open_json_load : string -> Hasil (option (list (string * string))))
    (file_resep file_aturan : string)
    (iter_set : list string -> list string) (input_bahan_str : string) :
  let hasil :=
    muat_data read_csv apply_literal_eval open_json_load file_resep file_aturan in
  let df_resep := hasil.1.1 in
  let aturan_asosiasi := hasil.1.2 in
  let pesan := hasil.2 in
  (length pesan <= 1)%nat
  ∧ (pesan ≠ [] <-> df_resep = None)
  ∧ (df_resep = None -> aturan_asosiasi = None)
  ∧ (pesan ≠ [] ->
     tombol_cari iter_set df_resep aturan_asosiasi input_bahan_str = TanpaMasukan)
  ∧ (tombol_cari iter_set df_resep aturan_asosiasi input_bahan_str = TanpaMasukan
     <-> pesan ≠ [] ∨ aturan_asosiasi = None).
Proof.
  intros hasil df_resep aturan_asosiasi pesan.
  subst df_resep aturan_asosiasi pesan hasil. unfold muat_data.
  assert (∀ e, let h := tangani e in
               (length h.2 <= 1)%nat ∧ h.2 ≠ [] ∧ h.1.1 = None ∧ h.1.2 = None)
    as Htangani by (intros [| pesan]; simpl; repeat split; (lia || done)).
  assert (∀ h : (option (list Baris) * option (list (string * string)))
                * list string,
            (length h.2 <= 1)%nat ∧ h.2 ≠ [] ∧ h.1.1 = None ∧ h.1.2 = None ->
            (length h.2 <= 1)%nat
            ∧ (h.2 ≠ [] <-> h.1.1 = None)
            ∧ (h.1.1 = None -> h.1.2 = None)
            ∧ (h.2 ≠ [] ->
               tombol_cari iter_set h.1.1 h.1.2 input_bahan_str = TanpaMasukan)
            ∧ (tombol_cari iter_set h.1.1 h.1.2 input_bahan_str = TanpaMasukan
               <-> h.2 ≠ [] ∨ h.1.2 = None)) as Hgagal.
  { intros [[d a] p] (Hlen & Hp & Hd & Ha). simpl in *. subst d a.
    repeat split; auto. }
  destruct (read_csv file_resep) as [mentah | e];
    [| apply Hgagal, Htangani].
  destruct (apply_literal_eval mentah) as [df | e];
    [| apply Hgagal, Htangani].
  destruct (open_json_load file_aturan) as [aturan | e];
    [| apply Hgagal, Htangani].
  cbn [fst snd length]. split; [lia |]. split; [split; done |].
  split; [done |]. split; [done |].
  destruct aturan as [aturan |].
  - split; [| intros [H | H]; done].
    unfold tombol_cari. intros H. exfalso.
    destruct (decide (PyStr.strip input_bahan_str = "")); [done |].
    by destruct (rekomendasi_resep _ _ _ _ _).
  - split; [by right | done].
Qed.

(** ** Ingredients that no recipe has *)

Lemma rekomendasi_baris_asing iter_set (U T : gset string) aturan row :
  T ∩ list_to_set (bahan_bahan row) = ∅ ->
  rekomendasi_baris iter_set (U ∪ T) aturan row
  = rekomendasi_baris iter_set U aturan row.
Proof.
  intros HT. unfold rekomendasi_baris.
  set (R := list_to_set (bahan_bahan row) : gset string) in *.
  assert ((U ∪ T) ∩ R = U ∩ R) as ->.
  { rewrite intersection_union_r_L, HT. apply (right_id_L ∅ (∪)). }
  assert (R ∖ (U ∪ T) = R ∖ U) as ->; [| done].
  apply set_eq. intros x. rewrite !elem_of_difference, elem_of_union.
  split; [intros [Hx Hn]; split; [done | by intros ?; apply Hn; left] |].
  intros [Hx Hn]. split; [done |]. intros [HU | HT']; [done |].
  assert (x ∈ T ∩ R) as Hin by (by apply elem_of_intersection).
  rewrite HT in Hin. by apply elem_of_empty in Hin.
Qed.

(** X12. Entries of the user's list that are an ingredient of no recipe of
    the catalog change nothing in what is returned: not the recipes, not
    their percentages, missing ingredients or suggestions. *)
Theorem X12_bahan_asing (iter_set : list string -> list string)
    (bahan_saya tambahan : list string) (df_resep : list Baris)
    (aturan_asosiasi : list (string * string)) (top_n : Z) :
  (∀ row, row ∈ df_resep ->
     bahan_saya_set tambahan ∩ list_to_set (bahan_bahan row) = ∅) ->
  rekomendasi_resep iter_set (bahan_saya ++ tambahan) df_resep aturan_asosiasi
    top_n
  = rekomendasi_resep iter_set bahan_saya df_resep aturan_asosiasi top_n.
Proof.
  intros H. rewrite !rekomendasi_resep_unfold. do 2 f_equal.
  apply omap_sama. intros row Hrow. rewrite bahan_saya_set_app.
  by apply rekomendasi_baris_asing, H.
Qed.

Lemma X12_witness :
  (∀ row, row ∈ [resep_a; resep_b] ->
     bahan_saya_set ["Rice "] ∩ list_to_set (bahan_bahan row) = ∅)
  ∧ rekomendasi_resep urutan_contoh (["garlic"] ++ ["Rice "]) [resep_a; resep_b]
      aturan_contoh 5
    = rekomendasi_resep urutan_contoh ["garlic"] [resep_a; resep_b] aturan_contoh 5.
Proof.
  assert (∀ row, row ∈ [resep_a; resep_b] ->
            bahan_saya_set ["Rice "] ∩ list_to_set (bahan_bahan row) = ∅) as H.
  { intros row Hrow. apply list_elem_of_In in Hrow.
    destruct Hrow as [<- | [<- | []]]; vm_compute; reflexivity. }
  split; [exact H |].
  exact (X12_bahan_asing urutan_contoh ["garlic"] ["Rice "] [resep_a; resep_b]
           aturan_contoh 5 H).
Defined.
